(** * URL shortener: key generation, validation, shortening and resolution

    A shallow embedding of the Go package [shortener] (validation, key
    generation, the salted retry loop, the atomic redirect) and of the
    redirect handler of [main], over a relational model of the [urls]
    table, together with the properties the design document states about
    them. *)

From Stdlib Require Import ZArith List String Ascii Bool Lia DecimalString.
From Stdlib Require DecimalPos DecimalZ.
Import ListNotations.

Local Open Scope string_scope.
Local Open Scope list_scope.
Local Open Scope Z_scope.

(** ** Go strings

    A Go [string] is a sequence of bytes; [len] is the number of bytes.  It
    is embedded as a Rocq [string], whose characters are bytes. *)

Module GoString.

Definition byte_of (c : ascii) : Z := Z.of_N (N_of_ascii c).

Definition bytes (s : string) : list Z := map byte_of (list_ascii_of_string s).

Definition len (s : string) : Z := Z.of_nat (String.length s).

(** [s[i:]]: the suffix from byte [i] on (for [i <= len s]). *)
Fixpoint drop (i : nat) (s : string) : string :=
  match i, s with
  | O, _ => s
  | S _, EmptyString => EmptyString
  | S i', String _ s' => drop i' s'
  end.

(** [s[:i]]: the first [i] bytes (for [i <= len s]). *)
Fixpoint take (i : nat) (s : string) : string :=
  match i, s with
  | O, _ => EmptyString
  | S _, EmptyString => EmptyString
  | S i', String c s' => String c (take i' s')
  end.

(** [strings.HasPrefix(s, p)]. *)
Definition HasPrefix (s p : string) : bool := String.prefix p s.

(** [strings.Index(s, sub)]: position of the first occurrence, searched
    from the left. *)
Fixpoint Index_from (n : nat) (s sub : string) : option nat :=
  if HasPrefix s sub then Some n
  else match s with
       | EmptyString => None
       | String _ s' => Index_from (S n) s' sub
       end.

Definition Index (s sub : string) : option nat := Index_from 0 s sub.

(** [strings.LastIndex(s, sub)]. *)
Fixpoint LastIndex_from (n : nat) (s sub : string) : option nat :=
  match s with
  | EmptyString => if HasPrefix s sub then Some n else None
  | String _ s' =>
      match LastIndex_from (S n) s' sub with
      | Some i => Some i
      | None => if HasPrefix s sub then Some n else None
      end
  end.

Definition LastIndex (s sub : string) : option nat := LastIndex_from 0 s sub.

(** [strings.Contains(s, sub)]. *)
Definition Contains (s sub : string) : bool :=
  match Index s sub with Some _ => true | None => false end.

(** [strings.Cut(s, sep)]: the text before and after the first [sep] and
    whether [sep] was found. *)
Definition Cut (s sep : string) : string * string * bool :=
  match Index s sep with
  | Some i => (take i s, drop (i + String.length sep) s, true)
  | None => (s, EmptyString, false)
  end.

Definition is_upper (c : ascii) : bool :=
  let b := byte_of c in (65 <=? b) && (b <=? 90).

Definition is_lower (c : ascii) : bool :=
  let b := byte_of c in (97 <=? b) && (b <=? 122).

Definition is_digit (c : ascii) : bool :=
  let b := byte_of c in (48 <=? b) && (b <=? 57).

Definition is_ascii_byte (c : ascii) : bool := byte_of c <? 128.

Definition lower_byte (c : ascii) : ascii :=
  if is_upper c then ascii_of_N (N_of_ascii c + 32) else c.

Fixpoint smap (f : ascii -> ascii) (s : string) : string :=
  match s with
  | EmptyString => EmptyString
  | String c s' => String (f c) (smap f s')
  end.

Fixpoint sall (p : ascii -> bool) (s : string) : bool :=
  match s with
  | EmptyString => true
  | String c s' => p c && sall p s'
  end.

(** [strings.HasSuffix(s, p)]. *)
Definition HasSuffix (s p : string) : bool :=
  (String.length p <=? String.length s)%nat
  && String.eqb (drop (String.length s - String.length p) s) p.

(** [strings.Count(s, string(c))] for a one-byte separator. *)
Fixpoint CountByte (s : string) (c : ascii) : nat :=
  match s with
  | EmptyString => O
  | String c' s' => if Ascii.eqb c' c then S (CountByte s' c) else CountByte s' c
  end.

(** Membership of a byte in a set of bytes written as a string. *)
Fixpoint byte_in (c : ascii) (set : string) : bool :=
  match set with
  | EmptyString => false
  | String c' set' => Ascii.eqb c c' || byte_in c set'
  end.

(** [strings.ToLower(s)].  Go lowers an all-ASCII string byte by byte and
    maps [unicode.ToLower] over the runes of any other string; that second
    path is the argument [mapLower]. *)
Definition ToLower (mapLower : string -> string) (s : string) : string :=
  if sall is_ascii_byte s then smap lower_byte s else mapLower s.

(** [fmt.Sprintf("%d", n)]. *)
Definition itoa (n : Z) : string := NilZero.string_of_int (Z.to_int n).

(** The double quote, as a one-byte string. *)
Definition dquote : string := String (ascii_of_nat 34) EmptyString.

(** [strconv.Quote(s)] for text without control bytes, quotes, backslashes
    or bytes above 126, which is written between double quotes as it is. *)
Definition Quote (s : string) : string := (dquote ++ s ++ dquote)%string.

End GoString.

(** ** crypto/sha256

    The streaming digest of Go's [crypto/sha256]: the chaining value [h],
    the bytes of the incomplete block [x] and the byte count [len]
    (a [uint64]).  Words are [uint32] values held in [Z]; every addition
    wraps modulo [2^32]. *)

Module Sha256.

Definition u32 (v : Z) : Z := v mod 4294967296.

Definition add32 (a b : Z) : Z := u32 (a + b).

(** [bits.RotateLeft32(v, -n)]. *)
Definition rotr (n v : Z) : Z :=
  u32 (Z.lor (Z.shiftr v n) (Z.shiftl v (32 - n))).

(** [^v] on a [uint32]. *)
Definition not32 (v : Z) : Z := 4294967295 - v.

(** The primes below [n], in increasing order. *)
Definition primes_below (n : nat) : list Z :=
  filter
    (fun p => forallb (fun d => negb (p mod d =? 0))
                      (map Z.of_nat (seq 2 (Z.to_nat p - 2))))
    (map Z.of_nat (seq 2 (n - 2))).

(** The integer cube root of [x], found bit by bit from bit [n - 1] down. *)
Fixpoint cube_root (n : nat) (x r : Z) : Z :=
  match n with
  | O => r
  | S n' =>
      let c := r + Z.shiftl 1 (Z.of_nat n') in
      if c * c * c <=? x then cube_root n' x c else cube_root n' x r
  end.

(** The round constants: the first 32 bits of the fractional parts of the
    cube roots of the first 64 primes. *)
Definition _K : list Z :=
  Eval vm_compute in
    map (fun p => u32 (cube_root 40 (Z.shiftl p 96) 0)) (primes_below 312).

Definition words8 : Type := (Z * Z * Z * Z * Z * Z * Z * Z)%type.

(** The initial chaining value: the first 32 bits of the fractional parts
    of the square roots of the first 8 primes. *)
Definition init : words8 :=
  Eval vm_compute in
    let h := fun p => u32 (Z.sqrt (Z.shiftl p 64)) in
    (h 2, h 3, h 5, h 7, h 11, h 13, h 17, h 19).

(** The first sixteen words of the schedule: the block read as big-endian
    [uint32]s. *)
Fixpoint be_words (p : list Z) : list Z :=
  match p with
  | b0 :: b1 :: b2 :: b3 :: p' =>
      Z.lor (Z.lor (Z.lor (Z.shiftl b0 24) (Z.shiftl b1 16)) (Z.shiftl b2 8)) b3
      :: be_words p'
  | _ => []
  end.

(** The schedule is grown most recent word first: [nth k r 0] is
    [w[i-1-k]]. *)
Definition next_word (r : list Z) : Z :=
  let v1 := nth 1 r 0 in
  let t1 := Z.lxor (Z.lxor (rotr 17 v1) (rotr 19 v1)) (Z.shiftr v1 10) in
  let v2 := nth 14 r 0 in
  let t2 := Z.lxor (Z.lxor (rotr 7 v2) (rotr 18 v2)) (Z.shiftr v2 3) in
  add32 (add32 (add32 t1 (nth 6 r 0)) t2) (nth 15 r 0).

Fixpoint extend (n : nat) (r : list Z) : list Z :=
  match n with
  | O => r
  | S n' => extend n' (next_word r :: r)
  end.

Definition schedule (p : list Z) : list Z := rev (extend 48 (rev (be_words p))).

Definition round (s : words8) (kw : Z * Z) : words8 :=
  let '(a, b, c, d, e, f, g, h) := s in
  let '(k, w) := kw in
  let t1 :=
    add32 (add32 (add32 (add32 h
      (Z.lxor (Z.lxor (rotr 6 e) (rotr 11 e)) (rotr 25 e)))
      (Z.lxor (Z.land e f) (Z.land (not32 e) g))) k) w in
  let t2 :=
    add32 (Z.lxor (Z.lxor (rotr 2 a) (rotr 13 a)) (rotr 22 a))
          (Z.lxor (Z.lxor (Z.land a b) (Z.land a c)) (Z.land b c)) in
  (add32 t1 t2, a, b, c, add32 d t1, e, f, g).

(** [blockGeneric] on one 64-byte block. *)
Definition block (h : words8) (p : list Z) : words8 :=
  let '(h0, h1, h2, h3, h4, h5, h6, h7) := h in
  let '(a, b, c, d, e, f, g, h') :=
    fold_left round (combine _K (schedule p)) h in
  (add32 h0 a, add32 h1 b, add32 h2 c, add32 h3 d,
   add32 h4 e, add32 h5 f, add32 h6 g, add32 h7 h').

Record digest : Type := mkDigest {
  dig_h : words8;
  dig_x : list Z;
  dig_len : Z
}.

(** [sha256.New()]. *)
Definition New : digest := mkDigest init [] 0.

(** One byte of [Write]: it joins the pending block, which is compressed
    as soon as it holds 64 bytes.  (Go copies and compresses whole blocks
    at a time; the state after the last byte is the same.) *)
Definition write_byte (d : digest) (b : Z) : digest :=
  let x := dig_x d ++ [b] in
  let n := (dig_len d + 1) mod 18446744073709551616 in
  if (Z.of_nat (List.length x) =? 64)
  then mkDigest (block (dig_h d) x) [] n
  else mkDigest (dig_h d) x n.

(** [d.Write(p)]. *)
Definition Write (d : digest) (p : list Z) : digest := fold_left write_byte p d.

Definition be32 (v : Z) : list Z :=
  [ Z.shiftr v 24 mod 256; Z.shiftr v 16 mod 256; Z.shiftr v 8 mod 256; v mod 256 ].

Definition be64 (v : Z) : list Z :=
  be32 (Z.shiftr v 32 mod 4294967296) ++ be32 (v mod 4294967296).

(** The padding of [checkSum]: a 1 bit, zero bits up to 56 bytes modulo 64,
    then the length in bits as a big-endian [uint64]. *)
Definition padding (len : Z) : list Z :=
  let t := if len mod 64 <? 56 then 56 - len mod 64 else 64 + 56 - len mod 64 in
  128 :: repeat 0 (Z.to_nat (t - 1)) ++ be64 (Z.shiftl len 3 mod 18446744073709551616).

(** [d.Sum(nil)]: the digest of everything written so far.  Go panics
    when the padding leaves bytes pending; [padding_completes_block] shows
    that it never does. *)
Definition Sum (d : digest) : list Z :=
  let d' := Write d (padding (dig_len d)) in
  let '(h0, h1, h2, h3, h4, h5, h6, h7) := dig_h d' in
  be32 h0 ++ be32 h1 ++ be32 h2 ++ be32 h3 ++
  be32 h4 ++ be32 h5 ++ be32 h6 ++ be32 h7.

(** [sha256.Sum256(data)]. *)
Definition Sum256 (data : list Z) : list Z := Sum (Write New data).

End Sha256.

(** ** encoding/base64, [URLEncoding] *)

Module Base64.

Definition encodeURL : string :=
  "ABCDEFGHIJKLMNOPQRSTUVWXYZabcdefghijklmnopqrstuvwxyz0123456789-_".

Definition StdPadding : ascii := "="%char.

(** [enc.encode[i]]. *)
Definition encode (i : Z) : ascii :=
  match String.get (Z.to_nat i) encodeURL with
  | Some c => c
  | None => "000"%char
  end.

Fixpoint EncodeToString (src : list Z) : string :=
  match src with
  | [] => EmptyString
  | [s0] =>
      let val := Z.shiftl s0 16 in
      String (encode (Z.land (Z.shiftr val 18) 63))
        (String (encode (Z.land (Z.shiftr val 12) 63))
          (String StdPadding (String StdPadding EmptyString)))
  | [s0; s1] =>
      let val := Z.lor (Z.shiftl s0 16) (Z.shiftl s1 8) in
      String (encode (Z.land (Z.shiftr val 18) 63))
        (String (encode (Z.land (Z.shiftr val 12) 63))
          (String (encode (Z.land (Z.shiftr val 6) 63))
            (String StdPadding EmptyString)))
  | s0 :: s1 :: s2 :: src' =>
      let val := Z.lor (Z.lor (Z.shiftl s0 16) (Z.shiftl s1 8)) s2 in
      String (encode (Z.land (Z.shiftr val 18) 63))
        (String (encode (Z.land (Z.shiftr val 12) 63))
          (String (encode (Z.land (Z.shiftr val 6) 63))
            (String (encode (Z.land val 63)) (EncodeToString src'))))
  end.

End Base64.

(** ** Key generator *)

(** [generateShortURLKey]: SHA-256 over the long URL followed by [":"] and
    the decimal salt (a Go [int]), URL-safe base64, first seven
    characters. *)
Definition generateShortURLKey (longUrl : string) (salt : Z) : string :=
  let hasher := Sha256.New in
  let hasher := Sha256.Write hasher (GoString.bytes longUrl) in
  let hasher := Sha256.Write hasher (GoString.bytes (":" ++ GoString.itoa salt)%string) in
  let hashBytes := Sha256.Sum hasher in
  let encoded := Base64.EncodeToString hashBytes in
  if GoString.len encoded <? 7 then "encoded string too short"
  else GoString.take 7 encoded.

(** [generateShortURLKey] as [src/shortener/shortener.go] has it, the
    revision without a salt: SHA-256 over the long URL alone. *)
Definition generateShortURLKey_unsalted (longUrl : string) : string :=
  let hasher := Sha256.New in
  let hasher := Sha256.Write hasher (GoString.bytes longUrl) in
  let hashBytes := Sha256.Sum hasher in
  let encoded := Base64.EncodeToString hashBytes in
  if GoString.len encoded <? 7 then "encoded string too short"
  else GoString.take 7 encoded.

(** ** Results and errors

    A Go function returning [(T, error)] is embedded as a function into
    [result T]; one returning [error] alone as a function into
    [option error], [None] being [nil]. *)

Inductive result (E A : Type) : Type :=
| Ok (a : A)
| Err (e : E).

Arguments Ok {E A} a.
Arguments Err {E A} e.

(** ** net/url

    [url.Parse] and the method [Hostname] of [URL], after the source of
    the Go standard library.  The fields [RawPath] and [RawFragment], which
    only record how the path and the fragment were spelled, are left
    out. *)

Module Url.

Import GoString.

Record URL : Type := mkURL {
  Scheme : string;
  Opaque : string;
  User : option (string * option string);
  Host : string;
  Path : string;
  ForceQuery : bool;
  RawQuery : string;
  OmitHost : bool;
  Fragment : string
}.

Inductive encoding : Type :=
| encodePath
| encodeHost
| encodeZone
| encodeUserPassword
| encodeFragment.

Definition is_host_mode (m : encoding) : bool :=
  match m with encodeHost | encodeZone => true | _ => false end.

Definition ishex (c : ascii) : bool :=
  is_digit c || byte_in c "abcdefABCDEF".

Definition unhex (c : ascii) : Z :=
  let b := byte_of c in
  if is_digit c then b - 48
  else if byte_in c "abcdef" then b - 97 + 10
  else if byte_in c "ABCDEF" then b - 65 + 10
  else 0.

(** [shouldEscape(c, mode)]. *)
Definition shouldEscape (c : ascii) (mode : encoding) : bool :=
  if is_lower c || is_upper c || is_digit c then false
  else if is_host_mode mode
          && (byte_in c "!$&'()*+,;=:[]<>" || Ascii.eqb c (ascii_of_nat 34))
  then false
  else if byte_in c "-_.~" then false
  else if byte_in c "$&+,/:;=?@" then
    match mode with
    | encodePath => Ascii.eqb c "?"
    | encodeUserPassword => byte_in c "@/?:"
    | encodeFragment => false
    | encodeHost | encodeZone => true
    end
  else if match mode with encodeFragment => byte_in c "!()*" | _ => false end
  then false
  else true.

Definition EscapeError (s : string) : string :=
  ("invalid URL escape " ++ Quote s)%string.

Definition InvalidHostError (s : string) : string :=
  ("invalid character " ++ Quote s ++ " in host name")%string.

(** The first pass of [unescape]: the escapes are well formed and, in a
    host, every byte is one a host may hold. *)
Fixpoint unescape_check (mode : encoding) (s : string) : option string :=
  match s with
  | EmptyString => None
  | String c rest =>
      if Ascii.eqb c "%" then
        match rest with
        | String c1 (String c2 rest') =>
            if negb (ishex c1 && ishex c2) then Some (EscapeError (take 3 s))
            else if match mode with encodeHost => true | _ => false end
                    && (unhex c1 <? 8)
                    && negb (String.eqb (take 3 s) "%25")
            then Some (EscapeError (take 3 s))
            else if match mode with encodeZone => true | _ => false end
                    && negb (String.eqb (take 3 s) "%25")
                    && negb (unhex c1 * 16 + unhex c2 =? 32)
                    && shouldEscape
                         (ascii_of_N (Z.to_N (unhex c1 * 16 + unhex c2))) encodeHost
            then Some (EscapeError (take 3 s))
            else unescape_check mode rest'
        | _ => Some (EscapeError (take 3 s))
        end
      else if Ascii.eqb c "+" then unescape_check mode rest
      else if is_host_mode mode && is_ascii_byte c && shouldEscape c encodeHost
      then Some (InvalidHostError (String c EmptyString))
      else unescape_check mode rest
  end.

(** The second pass of [unescape]: every [%xx] becomes its byte. *)
Fixpoint unescape_decode (s : string) : string :=
  match s with
  | EmptyString => EmptyString
  | String c rest =>
      if Ascii.eqb c "%" then
        match rest with
        | String c1 (String c2 rest') =>
            String (ascii_of_N (Z.to_N (unhex c1 * 16 + unhex c2)))
                   (unescape_decode rest')
        | _ => String c (unescape_decode rest)
        end
      else String c (unescape_decode rest)
  end.

Definition unescape (s : string) (mode : encoding) : result string string :=
  match unescape_check mode s with
  | Some e => Err e
  | None => Ok (unescape_decode s)
  end.

Definition stringContainsCTLByte (s : string) : bool :=
  negb (sall (fun c => negb ((byte_of c <? 32) || (byte_of c =? 127))) s).

Fixpoint getScheme_from (i : nat) (rest rawURL : string)
  : result string (string * string) :=
  match rest with
  | EmptyString => Ok ("", rawURL)
  | String c rest' =>
      if is_lower c || is_upper c then getScheme_from (S i) rest' rawURL
      else if is_digit c || byte_in c "+-." then
        match i with
        | O => Ok ("", rawURL)
        | S _ => getScheme_from (S i) rest' rawURL
        end
      else if Ascii.eqb c ":" then
        match i with
        | O => Err "missing protocol scheme"
        | S _ => Ok (take i rawURL, rest')
        end
      else Ok ("", rawURL)
  end.

Definition getScheme (rawURL : string) : result string (string * string) :=
  getScheme_from 0 rawURL rawURL.

Definition validOptionalPort (port : string) : bool :=
  match port with
  | EmptyString => true
  | String c digits => Ascii.eqb c ":" && sall is_digit digits
  end.

Definition validUserinfo (s : string) : bool :=
  sall (fun c => is_upper c || is_lower c || is_digit c
                 || byte_in c "-._:~!$&'()*+,;=%@") s.

Definition parseHost (host : string) : result string string :=
  let plain :=
    match unescape host encodeHost with
    | Err e => Err e
    | Ok h => Ok h
    end in
  if HasPrefix host "[" then
    match LastIndex host "]" with
    | None => Err "missing ']' in host"
    | Some i =>
        let colonPort := drop (i + 1) host in
        if negb (validOptionalPort colonPort)
        then Err ("invalid port " ++ Quote colonPort ++ " after host")%string
        else
          match Index (take i host) "%25" with
          | Some zone =>
              match unescape (take zone host) encodeHost with
              | Err e => Err e
              | Ok host1 =>
                  match unescape (drop zone (take i host)) encodeZone with
                  | Err e => Err e
                  | Ok host2 =>
                      match unescape (drop i host) encodeHost with
                      | Err e => Err e
                      | Ok host3 => Ok (host1 ++ host2 ++ host3)%string
                      end
                  end
              end
          | None => plain
          end
    end
  else
    match LastIndex host ":" with
    | Some i =>
        let colonPort := drop i host in
        if negb (validOptionalPort colonPort)
        then Err ("invalid port " ++ Quote colonPort ++ " after host")%string
        else plain
    | None => plain
    end.

Definition parseAuthority (authority : string)
  : result string (option (string * option string) * string) :=
  match LastIndex authority "@" with
  | None =>
      match parseHost authority with
      | Err e => Err e
      | Ok host => Ok (None, host)
      end
  | Some i =>
      match parseHost (drop (i + 1) authority) with
      | Err e => Err e
      | Ok host =>
          let userinfo := take i authority in
          if negb (validUserinfo userinfo) then Err "net/url: invalid userinfo"
          else if negb (Contains userinfo ":") then
            match unescape userinfo encodeUserPassword with
            | Err e => Err e
            | Ok u => Ok (Some (u, None), host)
            end
          else
            let '(username, password, _) := Cut userinfo ":" in
            match unescape username encodeUserPassword with
            | Err e => Err e
            | Ok u =>
                match unescape password encodeUserPassword with
                | Err e => Err e
                | Ok p => Ok (Some (u, Some p), host)
                end
            end
      end
  end.

(** [parse(rawURL, viaRequest)]: a URL without its fragment. *)
Definition parse (rawURL : string) (viaRequest : bool) : result string URL :=
  if stringContainsCTLByte rawURL
  then Err "net/url: invalid control character in URL"
  else if String.eqb rawURL "" && viaRequest then Err "empty url"
  else if String.eqb rawURL "*"
  then Ok (mkURL "" "" None "" "*" false "" false "")
  else
    match getScheme rawURL with
    | Err e => Err e
    | Ok (scheme0, rest0) =>
        (* a scheme holds ASCII only: [strings.ToLower] lowers its bytes *)
        let scheme := smap lower_byte scheme0 in
        let force := HasSuffix rest0 "?" && Nat.eqb (CountByte rest0 "?") 1 in
        let '(rest, rawQuery) :=
          if force then (take (String.length rest0 - 1) rest0, "")
          else let '(a, b, _) := Cut rest0 "?" in (a, b) in
        let rooted := HasPrefix rest "/" in
        if negb rooted && negb (String.eqb scheme "")
        then Ok (mkURL scheme rest None "" "" force rawQuery false "")
        else if negb rooted && viaRequest then Err "invalid URI for request"
        else if negb rooted && Contains (fst (fst (Cut rest "/"))) ":"
        then Err "first path segment in URL cannot contain colon"
        else
          let withAuthority :=
            (negb (String.eqb scheme "")
             || (negb viaRequest && negb (HasPrefix rest "///")))
            && HasPrefix rest "//" in
          let parts :=
            if withAuthority then
              let authority0 := drop 2 rest in
              let '(authority, rest1) :=
                match Index authority0 "/" with
                | Some i => (take i authority0, drop i authority0)
                | None => (authority0, "")
                end in
              match parseAuthority authority with
              | Err e => Err e
              | Ok (user, host) => Ok (user, host, rest1, false)
              end
            else Ok (None, "", rest, negb (String.eqb scheme "") && rooted) in
          match parts with
          | Err e => Err e
          | Ok (user, host, rest1, omit) =>
              match unescape rest1 encodePath with
              | Err e => Err e
              | Ok path =>
                  Ok (mkURL scheme "" user host path force rawQuery omit "")
              end
          end
    end.

(** The error type [url.Error]: the operation, the text that was parsed and the cause. *)
Record Error : Type := mkError {
  Op : string;
  URLtext : string;
  Cause : string
}.

(** [url.Parse(rawURL)]. *)
Definition Parse (rawURL : string) : result Error URL :=
  let '(u, frag, _) := Cut rawURL "#" in
  match parse u false with
  | Err e => Err (mkError "parse" u e)
  | Ok url =>
      if String.eqb frag "" then Ok url
      else
        match unescape frag encodeFragment with
        | Err e => Err (mkError "parse" rawURL e)
        | Ok f =>
            Ok (mkURL (Scheme url) (Opaque url) (User url) (Host url) (Path url)
                      (ForceQuery url) (RawQuery url) (OmitHost url) f)
        end
  end.

(** [splitHostPort] keeps the host: a valid port is cut off and the square
    brackets of an IPv6 literal are removed. *)
Definition splitHost (hostPort : string) : string :=
  let host :=
    match LastIndex hostPort ":" with
    | Some colon =>
        if validOptionalPort (drop colon hostPort) then take colon hostPort
        else hostPort
    | None => hostPort
    end in
  if HasPrefix host "[" && HasSuffix host "]"
  then take (String.length host - 2) (drop 1 host)
  else host.

(** [u.Hostname()]. *)
Definition Hostname (u : URL) : string := splitHost (Host u).

End Url.

(** ** Errors

    The error values the program builds or receives.  [Wrapf prefix cause]
    is [fmt.Errorf(prefix + "%w", cause)]: its text is the prefix followed
    by the text of the cause, and [errors.As] looks through it. *)

Inductive error : Type :=
| ErrNoRows
| PqError (Code Message : string)
| DriverError (msg : string)
| UrlError (e : Url.Error)
| Errorf (msg : string)
| Wrapf (prefix : string) (cause : error).

(** [err.Error()]. *)
Fixpoint Error_text (e : error) : string :=
  match e with
  | ErrNoRows => "sql: no rows in result set"
  | PqError _ m => ("pq: " ++ m)%string
  | DriverError m => m
  | UrlError u =>
      (Url.Op u ++ " " ++ GoString.Quote (Url.URLtext u) ++ ": " ++ Url.Cause u)%string
  | Errorf m => m
  | Wrapf p c => (p ++ Error_text c)%string
  end.

(** [errors.As(err, &pqErr)]: the first [pq.Error] of the chain, as its
    code and message. *)
Fixpoint As_pq (e : error) : option (string * string) :=
  match e with
  | PqError c m => Some (c, m)
  | Wrapf _ cause => As_pq cause
  | _ => None
  end.

(** [err == sql.ErrNoRows]. *)
Definition is_ErrNoRows (e : error) : bool :=
  match e with ErrNoRows => true | _ => false end.

(** ** The [urls] table

    The relation [urls] with the columns the program reads or writes:
    [short_key VARCHAR(7) UNIQUE NOT NULL], [long_url TEXT NOT NULL] and
    [click_count INTEGER] with a default.  The columns [id] and
    [created_at] are filled in by the database and never read.  Rows are
    kept in insertion order. *)

Record Row : Type := mkRow {
  short_key : string;
  long_url : string;
  click_count : Z
}.

(** What [create_table.sql] fixes for the program: the default of
    [click_count]. *)
Record Schema : Type := mkSchema {
  click_count_default : Z
}.

(** [create_table.sql] in the revision that is valid DDL:
    [click_count INTEGER DEFAULT 0].  (The text of
    [src/sql/create_table.sql] has no comma before the [click_count]
    column; no table comes from it.) *)
Definition create_table_sql_rev : Schema := mkSchema 0.

(** A failure the database reports for a reason outside the table: a lost
    connection, a cancelled context, a PostgreSQL error of any code. *)
Inductive fault : Type :=
| PqFault (Code Message : string)
| DriverFault (msg : string).

Definition fault_error (f : fault) : error :=
  match f with
  | PqFault c m => PqError c m
  | DriverFault m => DriverError m
  end.

(** The three statements the program sends. *)
Inductive Query : Type :=
| SelectShortKey (longURL : string)
| InsertURL (shortKey longURL : string)
| UpdateClickCount (shortKey : string).

(** A statement that was sent, with the error the driver returned. *)
Record Event : Type := mkEvent {
  ev_query : Query;
  ev_err : option error
}.

(** The database as the program sees it: the table, the failures the
    environment has in store for the statements to come (one entry per
    statement, none once the list is used up) and the statements sent so
    far. *)
Record World : Type := mkWorld {
  table : list Row;
  faults : list (option fault);
  log : list Event
}.

Definition init_world : World := mkWorld [] [] [].

Module Db.

Definition INT_MAX : Z := 2147483647.

Definition unique_violation : error :=
  PqError "23505"
    ("duplicate key value violates unique constraint "
     ++ GoString.Quote "urls_short_key_key")%string.

Definition value_too_long : error :=
  PqError "22001" "value too long for type character varying(7)".

Definition integer_out_of_range : error :=
  PqError "22003" "integer out of range".

Definition has_key (k : string) (r : Row) : bool := String.eqb (short_key r) k.

Definition has_url (u : string) (r : Row) : bool := String.eqb (long_url r) u.

(** The world after a statement: one entry of [faults] is used up and the
    statement is logged. *)
Definition after (w : World) (t : list Row) (q : Query) (e : option error)
  : World :=
  mkWorld t (tl (faults w)) (log w ++ [mkEvent q e]).

Definition pending (w : World) : option fault :=
  match faults w with
  | f :: _ => f
  | [] => None
  end.

(** [SELECT short_key FROM urls WHERE long_url = $1] through
    [QueryRowContext(...).Scan]: the first row found, [sql.ErrNoRows] when
    there is none. *)
Definition select_short_key (longURL : string) (w : World)
  : World * result error string :=
  let q := SelectShortKey longURL in
  match pending w with
  | Some f => (after w (table w) q (Some (fault_error f)), Err (fault_error f))
  | None =>
      match find (has_url longURL) (table w) with
      | Some r => (after w (table w) q None, Ok (short_key r))
      | None => (after w (table w) q (Some ErrNoRows), Err ErrNoRows)
      end
  end.

(** [INSERT INTO urls (short_key, long_url) VALUES ($1, $2)] through
    [ExecContext].  The key must fit [VARCHAR(7)] (keys are ASCII, so
    characters are bytes) and must not be in the table yet; the new row
    takes the default click count of the schema. *)
Definition insert_url (ddl : Schema) (shortKey longURL : string) (w : World)
  : World * option error :=
  let q := InsertURL shortKey longURL in
  match pending w with
  | Some f => (after w (table w) q (Some (fault_error f)), Some (fault_error f))
  | None =>
      if 7 <? GoString.len shortKey
      then (after w (table w) q (Some value_too_long), Some value_too_long)
      else if existsb (has_key shortKey) (table w)
      then (after w (table w) q (Some unique_violation), Some unique_violation)
      else (after w (table w ++ [mkRow shortKey longURL (click_count_default ddl)])
                  q None, None)
  end.

Definition bump (k : string) (r : Row) : Row :=
  if has_key k r then mkRow (short_key r) (long_url r) (click_count r + 1) else r.

(** [UPDATE urls SET click_count = click_count + 1 WHERE short_key = $1
    RETURNING long_url] through [QueryRowContext(...).Scan].  One
    statement: every matching row is updated or, when a counter would
    leave the range of [INTEGER], none is. *)
Definition update_click_count (shortKey : string) (w : World)
  : World * result error string :=
  let q := UpdateClickCount shortKey in
  match pending w with
  | Some f => (after w (table w) q (Some (fault_error f)), Err (fault_error f))
  | None =>
      if existsb (fun r => has_key shortKey r && (click_count r =? INT_MAX))
                 (table w)
      then (after w (table w) q (Some integer_out_of_range),
            Err integer_out_of_range)
      else
        match find (has_key shortKey) (table w) with
        | Some r =>
            (after w (map (bump shortKey) (table w)) q None, Ok (long_url r))
        | None => (after w (table w) q (Some ErrNoRows), Err ErrNoRows)
        end
  end.

End Db.

(** ** Library functions taken as parameters

    [url.Parse], [url.JoinPath] and the Unicode path of [strings.ToLower]
    are arguments of the program: what is proved of the program holds for
    every pure function in their place. *)

Record GoLib : Type := mkGoLib {
  url_Parse : string -> result Url.Error Url.URL;
  url_JoinPath : string -> string -> result error string;
  unicode_ToLower : string -> string
}.

(** [url.JoinPath(base, elem)] for a base that ends in a slash and one
    element of unreserved characters: the element is appended. *)
Definition JoinPath_segment (base elem : string) : result error string :=
  Ok (base ++ elem)%string.

(** The library as modelled above.  Non-ASCII text, which [unicode.ToLower]
    maps rune by rune, has only its ASCII letters lowered here. *)
Definition golib : GoLib :=
  mkGoLib Url.Parse JoinPath_segment (GoString.smap GoString.lower_byte).

(** ** Package shortener *)

Definition MaxURLLength : Z := 2048.

Definition MaxRetries : Z := 5.

Section Shortener.

Variable lib : GoLib.
Variable ddl : Schema.

(** [ValidateLongURL]: [None] is [nil]. *)
Definition ValidateLongURL (longURL : string) : option error :=
  if MaxURLLength <? GoString.len longURL
  then Some (Errorf ("url exceeds maximum length of "
                     ++ GoString.itoa MaxURLLength ++ " characters")%string)
  else
    match url_Parse lib longURL with
    | Err err => Some (Wrapf "invalid url format " (UrlError err))
    | Ok parsedURL =>
        if negb (String.eqb (Url.Scheme parsedURL) "http")
           && negb (String.eqb (Url.Scheme parsedURL) "https")
        then Some (Errorf "URL must use http or https scheme")
        else
          let host :=
            GoString.ToLower (unicode_ToLower lib) (Url.Hostname parsedURL) in
          if String.eqb host "localhost"
             || String.eqb host "127.0.0.1"
             || String.eqb host "0.0.0.0"
             || String.eqb host "::1"
             || GoString.HasPrefix host "127."
             || GoString.HasPrefix host "10."
             || GoString.HasPrefix host "192.168."
             || GoString.HasPrefix host "172.16."
          then Some (Errorf "internal or private URLs are not allowed")
          else None
    end.

(** [generateFullShortURL]. *)
Definition generateFullShortURL (shortKey : string) : result error string :=
  let baseDomain := "http://shan747.urs/" in
  match url_JoinPath lib baseDomain shortKey with
  | Err err => Err (Wrapf "Failed to construct full short URL: " err)
  | Ok fullURL => Ok fullURL
  end.

(** [CheckDbForLongURL]. *)
Definition CheckDbForLongURL (longURL : string) (w : World)
  : World * result error string :=
  let '(w', r) := Db.select_short_key longURL w in
  match r with
  | Err err =>
      if is_ErrNoRows err then (w', Ok "")
      else (w', Err (Wrapf "error querying database for long URL: " err))
  | Ok shortKey => (w', Ok shortKey)
  end.

(** [saveURLToDatabase]. *)
Definition saveURLToDatabase (shortKey longURL : string) (w : World)
  : World * option error :=
  let '(w', r) := Db.insert_url ddl shortKey longURL w in
  match r with
  | Some err => (w', Some (Wrapf "database insert failed: " err))
  | None => (w', None)
  end.

(** [isCollisionError]. *)
Definition isCollisionError (err : option error) : bool :=
  match err with
  | None => false
  | Some e =>
      match As_pq e with
      | Some (code, _) => String.eqb code "23505"
      | None => false
      end
  end.

(** How the [for] loop of [HandleShortURLRequest] is left: by the [return]
    in its body, or by [break] or its condition, with the variables
    [shortKey] and [err] as they are then. *)
Inductive loop_exit : Type :=
| LoopReturn (e : error)
| LoopDone (shortKey : string) (err : option error).

(** The loop with [n] iterations to go, [attempt] being the loop variable. *)
Fixpoint retry_loop (n : nat) (attempt : Z) (shortKey : string)
  (err : option error) (longUrl : string) (w : World) : World * loop_exit :=
  match n with
  | O => (w, LoopDone shortKey err)
  | S n' =>
      let shortKey := generateShortURLKey longUrl attempt in
      let '(w1, err) := saveURLToDatabase shortKey longUrl w in
      match err with
      | None => (w1, LoopDone shortKey None)
      | Some e =>
          if isCollisionError err
          then retry_loop n' (attempt + 1) shortKey err longUrl w1
          else (w1, LoopReturn (Wrapf "failed to save url: " e))
      end
  end.

(** [HandleShortURLRequest]. *)
Definition HandleShortURLRequest (longUrl : string) (w : World)
  : World * result error string :=
  match ValidateLongURL longUrl with
  | Some err => (w, Err (Wrapf "validation failed: " err))
  | None =>
      let '(w1, r) := CheckDbForLongURL longUrl w in
      match r with
      | Err err => (w1, Err (Wrapf "database lookup failed: " err))
      | Ok shortKey =>
          if negb (String.eqb shortKey "")
          then (w1, generateFullShortURL shortKey)
          else
            let '(w2, exit) :=
              retry_loop (Z.to_nat MaxRetries) 0 shortKey None longUrl w1 in
            match exit with
            | LoopReturn e => (w2, Err e)
            | LoopDone shortKey (Some err) =>
                (w2, Err (Wrapf ("failed to save url after "
                                 ++ GoString.itoa MaxRetries
                                 ++ " attempts: ")%string err))
            | LoopDone shortKey None => (w2, generateFullShortURL shortKey)
            end
      end
  end.

(** [HandleRedirectRequest]. *)
Definition HandleRedirectRequest (shortKey : string) (w : World)
  : World * result error string :=
  if negb (GoString.len shortKey =? 7)
  then (w, Err (Errorf "invalid short key length"))
  else
    let '(w', r) := Db.update_click_count shortKey w in
    match r with
    | Err err =>
        if is_ErrNoRows err then (w', Err (Errorf "short URL not found"))
        else (w', Err (Wrapf "database query failed: " err))
    | Ok longURL => (w', Ok longURL)
    end.

(** ** Package main: the redirect handler *)

(** What the handler writes: [http.Error(w, body, code)],
    [http.Redirect(w, r, url, code)], or a run-time panic. *)
Inductive Response : Type :=
| HttpError (body : string) (code : Z)
| HttpRedirect (url : string) (code : Z)
| Panic (msg : string).

(** [http.NotFound(w, r)]. *)
Definition http_NotFound : Response := HttpError "404 page not found" 404.

(** The characters of a key: [A-Z], [a-z], [0-9], [-] and [_].  The handler
    ranges over runes; a rune below 128 is its byte and any other is none
    of these characters, so the test is made byte by byte. *)
Definition key_char (c : ascii) : bool :=
  GoString.is_upper c || GoString.is_lower c || GoString.is_digit c
  || Ascii.eqb c "-" || Ascii.eqb c "_".

(** [handleRedirect] on a request whose [r.URL.Path] is [path]. *)
Definition handleRedirect (path : string) (w : World) : World * Response :=
  if GoString.HasPrefix path "/api/" then (w, http_NotFound)
  else
    match path with
    | EmptyString => (w, Panic "slice bounds out of range [1:0]")
    | String _ shortKey =>
        if String.eqb shortKey ""
        then (w, HttpError "short key required" 404)
        else if negb (GoString.sall key_char shortKey)
        then (w, HttpError "invalid short key format" 400)
        else
          let '(w', r) := HandleRedirectRequest shortKey w in
          match r with
          | Err err =>
              if GoString.Contains (Error_text err) "invalid short key length"
              then (w', HttpError (Error_text err) 400)
              else if GoString.Contains (Error_text err) "not found"
              then (w', HttpError (Error_text err) 404)
              else (w', HttpError "internal server error" 500)
          | Ok longURL => (w', HttpRedirect longURL 302)
          end
    end.

End Shortener.

(** * Vocabulary of the properties *)

(** Bytes in hexadecimal, for the test vectors. *)
Definition hex_digit (n : Z) : ascii :=
  match String.get (Z.to_nat n) "0123456789abcdef" with
  | Some c => c
  | None => "000"%char
  end.

Fixpoint hex (bs : list Z) : string :=
  match bs with
  | [] => EmptyString
  | b :: bs' =>
      String (hex_digit (b / 16)) (String (hex_digit (b mod 16)) (hex bs'))
  end.

(** The bytes pending in a digest are those written since the last full
    block. *)
Definition digest_ok (d : Sha256.digest) : Prop :=
  Z.of_nat (List.length (Sha256.dig_x d)) = Sha256.dig_len d mod 64.

(** ** Hosts *)

(** An IPv4 address in dotted decimal. *)
Definition dotted (a b c d : Z) : string :=
  (GoString.itoa a ++ "." ++ GoString.itoa b ++ "."
   ++ GoString.itoa c ++ "." ++ GoString.itoa d)%string.

Definition octet (n : Z) : Prop := 0 <= n <= 255.

(** The loopback names of the design document. *)
Definition loopback_name (h : string) : Prop :=
  h = "localhost" \/ h = "127.0.0.1" \/ h = "::1".

(** The private ranges as the design document has them: 10.0.0.0/8,
    192.168.0.0/16 and 172.16.0.0/12, on the first two octets. *)
Definition private_range_spec (a b : Z) : Prop :=
  a = 10 \/ (a = 192 /\ b = 168) \/ (a = 172 /\ 16 <= b <= 31).

(** The private ranges the validator covers: of 172.16.0.0/12 only
    172.16.0.0/16. *)
Definition private_range_code (a b : Z) : Prop :=
  a = 10 \/ (a = 192 /\ b = 168) \/ (a = 172 /\ b = 16).

(** A host that is a loopback name or an address of the given ranges. *)
Definition internal_host (range : Z -> Z -> Prop) (h : string) : Prop :=
  loopback_name h
  \/ exists a b c d,
       octet a /\ octet b /\ octet c /\ octet d
       /\ range a b /\ h = dotted a b c d.

(** The host rule of [ValidateLongURL], on the lower-cased hostname. *)
Definition host_blocked (host : string) : bool :=
  String.eqb host "localhost"
  || String.eqb host "127.0.0.1"
  || String.eqb host "0.0.0.0"
  || String.eqb host "::1"
  || GoString.HasPrefix host "127."
  || GoString.HasPrefix host "10."
  || GoString.HasPrefix host "192.168."
  || GoString.HasPrefix host "172.16.".

Definition digit_or_dot (c : ascii) : bool :=
  GoString.is_digit c || Ascii.eqb c ".".

(** ** Tables and worlds *)

(** The click count of the mapping of a key, when there is one. *)
Definition clicks (k : string) (t : list Row) : option Z :=
  option_map click_count (find (Db.has_key k) t).

(** The [INSERT] statements of the retry loop for the salts from [salt]
    on, with the error each one came back with. *)
Fixpoint insert_events (longUrl : string) (salt : Z) (outs : list (option error))
  : list Event :=
  match outs with
  | [] => []
  | o :: outs' =>
      mkEvent (InsertURL (generateShortURLKey longUrl salt) longUrl) o
      :: insert_events longUrl (salt + 1) outs'
  end.

(** [n] calls of [HandleRedirectRequest] in a row, with their results. *)
Fixpoint resolve_times (n : nat) (key : string) (w : World)
  : World * list (result error string) :=
  match n with
  | O => (w, [])
  | S n' =>
      let '(w1, r) := HandleRedirectRequest key w in
      let '(w2, rs) := resolve_times n' key w1 in
      (w2, r :: rs)
  end.

Definition is_ok {A : Type} (r : result error A) : Prop :=
  match r with Ok _ => True | Err _ => False end.

(** What the redirect handler answers to a malformed key. *)
Definition key_rejection (key : string) : Response :=
  if GoString.HasPrefix key "api/" then http_NotFound
  else if String.eqb key "" then HttpError "short key required" 404
  else if negb (GoString.sall key_char key)
  then HttpError "invalid short key format" 400
  else HttpError "invalid short key length" 400.

(** The worlds the program can be in: it starts on an empty table, with any
    failures to come, and serves shortening and redirect requests. *)
Inductive reachable (lib : GoLib) (ddl : Schema) : World -> Prop :=
| reach_init (fs : list (option fault)) : reachable lib ddl (mkWorld [] fs [])
| reach_shorten (w : World) (longUrl : string) :
    reachable lib ddl w ->
    reachable lib ddl (fst (HandleShortURLRequest lib ddl longUrl w))
| reach_resolve (w : World) (shortKey : string) :
    reachable lib ddl w ->
    reachable lib ddl (fst (HandleRedirectRequest shortKey w))
| reach_redirect (w : World) (path : string) :
    reachable lib ddl w ->
    reachable lib ddl (fst (handleRedirect path w)).

(** Every key of the table has seven characters. *)
Definition keys_ok (t : list Row) : Prop :=
  Forall (fun r => String.length (short_key r) = 7%nat) t.

(** The prefix [saveURLToDatabase] puts before the error of the driver. *)
Definition insert_failed : string := "database insert failed: ".

(** A table on which the key of salt 0 of "https://example.com/a" is
    taken by another long URL. *)
Definition collided_world : World :=
  mkWorld [mkRow "ODAbUmv" "https://other.example/" 0] [] [].


(** The world a shortening request on an empty table leaves. *)
Definition one_mapping_world : World :=
  fst (HandleShortURLRequest golib create_table_sql_rev
         "https://example.com/a" init_world).

(** ** Package main: the shorten handler *)

(** [ShortenRequest] and [ShortenResponse], the JSON bodies. *)
Record ShortenRequest : Type := mkShortenRequest {
  LongURL : string
}.

Record ShortenResponse : Type := mkShortenResponse {
  ShortURL : string;
  Error : string
}.

(** A request as [handleShorten] reads it: its method and its body. *)
Record Request : Type := mkRequest {
  Method : string;
  Body : string
}.

(** What [handleShorten] writes: [http.Error(w, body, code)], or a status
    with a [ShortenResponse] as JSON. *)
Inductive ShortenReply : Type :=
| PlainError (body : string) (code : Z)
| Json (code : Z) (resp : ShortenResponse).

(** [handleShorten].  [decode] is [json.NewDecoder(r.Body).Decode(&req)],
    an argument like the other library functions. *)
Definition handleShorten (decode : string -> result error ShortenRequest)
  (lib : GoLib) (ddl : Schema) (r : Request) (w : World)
  : World * ShortenReply :=
  if negb (String.eqb (Method r) "POST")
  then (w, PlainError "Method not allowed" 405)
  else
    match decode (Body r) with
    | Err _ => (w, Json 400 (mkShortenResponse "" "Invalid JSON format"))
    | Ok req =>
        if String.eqb (LongURL req) ""
        then (w, Json 400 (mkShortenResponse "" "long_url field is required"))
        else
          let '(w', res) := HandleShortURLRequest lib ddl (LongURL req) w in
          match res with
          | Err err => (w', Json 400 (mkShortenResponse "" (Error_text err)))
          | Ok shortURL => (w', Json 201 (mkShortenResponse shortURL ""))
          end
    end.

(** A decoder for the examples: the body is taken as the long URL. *)
Definition decode_body (body : string) : result error ShortenRequest :=
  Ok (mkShortenRequest body).

(** A POST request for "https://example.com/a" and the world
    [handleShorten] leaves of the empty table on it. *)
Definition post_example : Request := mkRequest "POST" "https://example.com/a".

Definition posted_world : World :=
  fst (handleShorten decode_body golib create_table_sql_rev post_example
         init_world).

(** ** Package shortener, the first revision *)

(** [generateFullShortURL] as [src/shortener/shortener.go] has it: it takes
    the long URL and generates the key itself, without a salt. *)
Definition generateFullShortURL_first (lib : GoLib) (longUrl : string)
  : result error string :=
  let baseDomain := "http://shan747.urs/" in
  let shortKey := generateShortURLKey_unsalted longUrl in
  if String.eqb shortKey "encoded string too short"
  then Err (Errorf "failed to generate short key")
  else
    match url_JoinPath lib baseDomain shortKey with
    | Err err => Err (Wrapf "failed to construct full short URL: " err)
    | Ok fullURL => Ok fullURL
    end.

(** ** Vocabulary of the further properties *)

(** An error as the driver returns it, not wrapped by the program. *)
Definition driver_error (e : error) : Prop :=
  match e with
  | PqError _ _ | DriverError _ => True
  | _ => False
  end.


(** What the redirect handler answers to an error of
    [HandleRedirectRequest] with the text [t]. *)
Definition error_answer (t : string) : Response :=
  if GoString.Contains t "invalid short key length" then HttpError t 400
  else if GoString.Contains t "not found" then HttpError t 404
  else HttpError "internal server error" 500.

(** The mapping a row holds: its key and its long URL. *)
Definition mapping (r : Row) : string * string := (short_key r, long_url r).

(** A row the program made: its key is the generated key of its long URL
    for one of the five salts, and its long URL passed the validator. *)
Definition row_made (lib : GoLib) (r : Row) : Prop :=
  (exists i, 0 <= i < MaxRetries
             /\ short_key r = generateShortURLKey (long_url r) i)
  /\ ValidateLongURL lib (long_url r) = None.

(** What the program keeps true of the table. *)
Definition table_inv (lib : GoLib) (t : list Row) : Prop :=
  NoDup (map short_key t)
  /\ NoDup (map long_url t)
  /\ Forall (row_made lib) t.

Definition no_colon (c : ascii) : bool := negb (Ascii.eqb c ":").

(** The bytes [generateShortURLKey] hashes. *)
Definition salted_message (longUrl : string) (salt : Z) : list Z :=
  GoString.bytes (longUrl ++ ":" ++ GoString.itoa salt)%string.

(** * Properties *)

(** ** Key generator *)

(** The digests of the empty message, of a one-block message and of a
    message whose padding takes a second block (FIPS 180-4 examples). *)
Example sha256_empty :
  hex (Sha256.Sum256 (GoString.bytes ""))
  = "e3b0c44298fc1c149afbf4c8996fb92427ae41e4649b934ca495991b7852b855".
Proof. vm_compute. reflexivity. Qed.

Example sha256_abc :
  hex (Sha256.Sum256 (GoString.bytes "abc"))
  = "ba7816bf8f01cfea414140de5dae2223b00361a396177a9cb410ff61f20015ad".
Proof. vm_compute. reflexivity. Qed.

Example sha256_two_blocks :
  hex (Sha256.Sum256
         (GoString.bytes "abcdbcdecdefdefgefghfghighijhijkijkljklmklmnlmnomnopnopq"))
  = "248d6a61d20638b8e5c026930c3e6039a33ce45964ff2167f6ecedd419db06c1".
Proof. vm_compute. reflexivity. Qed.

Example base64_abc :
  Base64.EncodeToString (Sha256.Sum256 (GoString.bytes "abc"))
  = "ungWv48Bz-pBQUDeXa4iI7ADYaOWF3qctBD_YfIAFa0=".
Proof. vm_compute. reflexivity. Qed.

Lemma Sum_length (d : Sha256.digest) : List.length (Sha256.Sum d) = 32%nat.
Proof.
  unfold Sha256.Sum.
  destruct (Sha256.dig_h (Sha256.Write d (Sha256.padding (Sha256.dig_len d))))
    as [[[[[[[h0 h1] h2] h3] h4] h5] h6] h7].
  reflexivity.
Qed.

Lemma Write_app (d : Sha256.digest) (p q : list Z) :
  Sha256.Write (Sha256.Write d p) q = Sha256.Write d (p ++ q).
Proof. unfold Sha256.Write. symmetry. apply fold_left_app. Qed.

Lemma mod_2_64_mod_64 (a : Z) : (a mod 18446744073709551616) mod 64 = a mod 64.
Proof.
  apply Z.mod_mod_divide. exists 288230376151711744. reflexivity.
Qed.

Lemma write_byte_ok (d : Sha256.digest) (b : Z) :
  digest_ok d -> digest_ok (Sha256.write_byte d b).
Proof.
  unfold digest_ok, Sha256.write_byte. intros H.
  rewrite length_app. cbn [List.length].
  destruct (Z.of_nat (List.length (Sha256.dig_x d) + 1) =? 64) eqn:E;
    cbn [Sha256.dig_x Sha256.dig_len List.length];
    rewrite mod_2_64_mod_64, <- Zplus_mod_idemp_l, <- H.
  - apply Z.eqb_eq in E.
    replace (Z.of_nat (List.length (Sha256.dig_x d)) + 1) with 64 by lia.
    reflexivity.
  - apply Z.eqb_neq in E.
    assert (Hlt : Sha256.dig_len d mod 64 < 64)
      by (apply Z.mod_pos_bound; lia).
    rewrite Z.mod_small by lia.
    rewrite length_app. cbn [List.length]. lia.
Qed.

Lemma write_byte_len (d : Sha256.digest) (b : Z) :
  Sha256.dig_len (Sha256.write_byte d b) mod 64 = (Sha256.dig_len d + 1) mod 64.
Proof.
  unfold Sha256.write_byte.
  destruct (Z.of_nat (List.length (Sha256.dig_x d ++ [b])) =? 64);
    cbn [Sha256.dig_len]; apply mod_2_64_mod_64.
Qed.

Lemma Write_ok (p : list Z) :
  forall d, digest_ok d ->
    digest_ok (Sha256.Write d p)
    /\ Sha256.dig_len (Sha256.Write d p) mod 64
       = (Sha256.dig_len d + Z.of_nat (List.length p)) mod 64.
Proof.
  induction p as [|b p IH]; intros d H.
  - split; [exact H|]. cbn. f_equal. lia.
  - destruct (IH (Sha256.write_byte d b) (write_byte_ok d b H)) as [H1 H2].
    split; [exact H1|].
    change (Sha256.Write d (b :: p)) with (Sha256.Write (Sha256.write_byte d b) p).
    rewrite H2. cbn [List.length].
    rewrite Z.add_mod, write_byte_len, <- Z.add_mod by lia.
    f_equal. lia.
Qed.

Lemma padding_length (len : Z) :
  (len + Z.of_nat (List.length (Sha256.padding len))) mod 64 = 0.
Proof.
  unfold Sha256.padding, Sha256.be64, Sha256.be32.
  cbn [List.length]. rewrite length_app, repeat_length. cbn [List.length app].
  pose proof (Z.mod_pos_bound len 64 ltac:(lia)) as Hb.
  rewrite <- Zplus_mod_idemp_l.
  destruct (len mod 64 <? 56) eqn:E.
  - apply Z.ltb_lt in E.
    replace (len mod 64 + _) with 64 by lia. reflexivity.
  - apply Z.ltb_ge in E.
    replace (len mod 64 + _) with 128 by lia. reflexivity.
Qed.

(** After the padding no byte is pending: the check of [checkSum] on the
    pending block never fires. *)
Lemma padding_completes_block (d : Sha256.digest) :
  digest_ok d ->
  Sha256.dig_x (Sha256.Write d (Sha256.padding (Sha256.dig_len d))) = [].
Proof.
  intros H.
  destruct (Write_ok (Sha256.padding (Sha256.dig_len d)) d H) as [H1 H2].
  rewrite padding_length in H2. unfold digest_ok in H1. rewrite H2 in H1.
  destruct (Sha256.dig_x _); [reflexivity | discriminate H1].
Qed.

Lemma New_ok : digest_ok Sha256.New.
Proof. reflexivity. Qed.

Lemma bytes_app (s t : string) :
  GoString.bytes (s ++ t)%string = GoString.bytes s ++ GoString.bytes t.
Proof.
  unfold GoString.bytes.
  induction s as [|c s IH]; simpl; [reflexivity|].
  f_equal. exact IH.
Qed.

(** Every symbol of the alphabet is a key character. *)
Lemma encode_key_char (v : Z) : key_char (Base64.encode (Z.land v 63)) = true.
Proof.
  assert (Hall : forallb (fun n => key_char (Base64.encode (Z.of_nat n)))
                         (seq 0 64) = true) by (vm_compute; reflexivity).
  rewrite forallb_forall in Hall.
  assert (Hr : 0 <= Z.land v 63 < 64).
  { change 63 with (Z.ones 6). rewrite Z.land_ones by lia.
    apply Z.mod_pos_bound. reflexivity. }
  specialize (Hall (Z.to_nat (Z.land v 63))).
  rewrite Z2Nat.id in Hall by lia.
  apply Hall. apply in_seq. lia.
Qed.

(** A list of 32 bytes, spelled out. *)
Ltac spell_out l H :=
  repeat (destruct l as [|? l]; [discriminate H|]);
  destruct l; [|discriminate H].

Lemma Encode_32_length (bs : list Z) :
  List.length bs = 32%nat -> String.length (Base64.EncodeToString bs) = 44%nat.
Proof. intros H. spell_out bs H. reflexivity. Qed.

Lemma Encode_32_prefix (bs : list Z) :
  List.length bs = 32%nat ->
  String.length (GoString.take 7 (Base64.EncodeToString bs)) = 7%nat
  /\ GoString.sall key_char (GoString.take 7 (Base64.EncodeToString bs)) = true.
Proof.
  intros H. spell_out bs H.
  cbn [Base64.EncodeToString GoString.take GoString.sall String.length].
  split; [reflexivity|].
  rewrite !encode_key_char. reflexivity.
Qed.

Lemma key_of_digest (bs : list Z) :
  List.length bs = 32%nat ->
  (if GoString.len (Base64.EncodeToString bs) <? 7
   then "encoded string too short"
   else GoString.take 7 (Base64.EncodeToString bs))
  = GoString.take 7 (Base64.EncodeToString bs).
Proof.
  intros H. unfold GoString.len. rewrite (Encode_32_length bs H). reflexivity.
Qed.

(** The key is the first seven characters of the encoded digest. *)
Lemma generateShortURLKey_take (longUrl : string) (salt : Z) :
  generateShortURLKey longUrl salt
  = GoString.take 7
      (Base64.EncodeToString
         (Sha256.Sum
            (Sha256.Write (Sha256.Write Sha256.New (GoString.bytes longUrl))
               (GoString.bytes (":" ++ GoString.itoa salt)%string)))).
Proof. unfold generateShortURLKey. apply key_of_digest, Sum_length. Qed.

Lemma generateShortURLKey_length (longUrl : string) (salt : Z) :
  String.length (generateShortURLKey longUrl salt) = 7%nat.
Proof.
  rewrite generateShortURLKey_take. apply Encode_32_prefix, Sum_length.
Qed.

Lemma generateShortURLKey_chars (longUrl : string) (salt : Z) :
  GoString.sall key_char (generateShortURLKey longUrl salt) = true.
Proof.
  rewrite generateShortURLKey_take. apply Encode_32_prefix, Sum_length.
Qed.

(** C9.  For every long URL and every salt the generated key has exactly
    seven characters, each from [A-Za-z0-9_-]: the padding completes the
    last block, the digest has 32 bytes, its encoding 44 characters, so
    the branch returning the text "encoded string too short" is never
    taken. *)
Theorem generateShortURLKey_shape (longUrl : string) (salt : Z) :
  let hasher :=
    Sha256.Write (Sha256.Write Sha256.New (GoString.bytes longUrl))
                 (GoString.bytes (":" ++ GoString.itoa salt)%string) in
  Sha256.dig_x (Sha256.Write hasher (Sha256.padding (Sha256.dig_len hasher))) = []
  /\ List.length (Sha256.Sum hasher) = 32%nat
  /\ String.length (Base64.EncodeToString (Sha256.Sum hasher)) = 44%nat
  /\ generateShortURLKey longUrl salt
     = GoString.take 7 (Base64.EncodeToString (Sha256.Sum hasher))
  /\ String.length (generateShortURLKey longUrl salt) = 7%nat
  /\ GoString.sall key_char (generateShortURLKey longUrl salt) = true
  /\ generateShortURLKey longUrl salt <> "encoded string too short".
Proof.
  intros hasher.
  split.
  { apply padding_completes_block. subst hasher.
    apply Write_ok, Write_ok, New_ok. }
  split; [apply Sum_length|].
  split; [apply Encode_32_length, Sum_length|].
  split; [apply generateShortURLKey_take|].
  split; [apply generateShortURLKey_length|].
  split; [apply generateShortURLKey_chars|].
  intros Heq.
  pose proof (generateShortURLKey_length longUrl salt) as H7.
  rewrite Heq in H7. discriminate H7.
Qed.

(** C3, as stated, fails: with salt 0 the digest is taken over the long URL
    followed by ":0", and the key differs from the one of the long URL
    alone. *)
Lemma salt_zero_is_not_unsalted :
  generateShortURLKey "https://example.com/a" 0 = "ODAbUmv"
  /\ generateShortURLKey_unsalted "https://example.com/a" = "Lc4KTFB"
  /\ generateShortURLKey "https://example.com/a" 0
     <> generateShortURLKey_unsalted "https://example.com/a".
Proof.
  split; [vm_compute; reflexivity|].
  split; [vm_compute; reflexivity|].
  vm_compute. discriminate.
Qed.

(** C3, amended.  For every long URL and every salt, zero included, the key
    is the one of the digest over the long URL, a colon and the salt in
    decimal. *)
Theorem generateShortURLKey_salted (longUrl : string) (salt : Z) :
  generateShortURLKey longUrl salt
  = GoString.take 7
      (Base64.EncodeToString
         (Sha256.Sum256
            (GoString.bytes (longUrl ++ ":" ++ GoString.itoa salt)%string)))
  /\ generateShortURLKey longUrl salt
     = generateShortURLKey_unsalted (longUrl ++ ":" ++ GoString.itoa salt)%string
  /\ generateShortURLKey longUrl 0
     = generateShortURLKey_unsalted (longUrl ++ ":0")%string.
Proof.
  assert (H : forall s,
    generateShortURLKey longUrl s
    = generateShortURLKey_unsalted (longUrl ++ ":" ++ GoString.itoa s)%string).
  { intros s. unfold generateShortURLKey, generateShortURLKey_unsalted.
    rewrite Write_app, <- bytes_app. reflexivity. }
  split; [|split].
  - rewrite H. unfold generateShortURLKey_unsalted, Sha256.Sum256.
    apply key_of_digest, Sum_length.
  - apply H.
  - apply (H 0).
Qed.

(** ** Validator *)

Lemma sall_app (p : ascii -> bool) (s t : string) :
  GoString.sall p (s ++ t)%string = GoString.sall p s && GoString.sall p t.
Proof.
  induction s as [|c s IH]; simpl; [reflexivity|].
  rewrite IH. apply andb_assoc.
Qed.

Lemma string_of_uint_digits (d : Decimal.uint) :
  GoString.sall digit_or_dot (NilEmpty.string_of_uint d) = true.
Proof. induction d; simpl; try rewrite IHd; reflexivity. Qed.

Lemma itoa_digits (n : Z) :
  0 <= n -> GoString.sall digit_or_dot (GoString.itoa n) = true.
Proof.
  intros Hn. unfold GoString.itoa.
  destruct n as [|p|p]; [reflexivity| |lia].
  unfold Z.to_int, NilZero.string_of_int, NilZero.string_of_uint.
  destruct (Pos.to_uint p); solve [reflexivity | apply string_of_uint_digits].
Qed.

Lemma dotted_digits (a b c d : Z) :
  octet a -> octet b -> octet c -> octet d ->
  GoString.sall digit_or_dot (dotted a b c d) = true.
Proof.
  unfold octet, dotted. intros Ha Hb Hc Hd.
  rewrite !sall_app, !itoa_digits by lia. reflexivity.
Qed.

Lemma digit_or_dot_byte (c : ascii) :
  digit_or_dot c = true ->
  GoString.is_ascii_byte c = true /\ GoString.lower_byte c = c.
Proof.
  destruct c as [[|] [|] [|] [|] [|] [|] [|] [|]]; vm_compute; intros H;
    solve [discriminate H | split; reflexivity].
Qed.

Lemma digit_or_dot_ascii (s : string) :
  GoString.sall digit_or_dot s = true ->
  GoString.sall GoString.is_ascii_byte s = true
  /\ GoString.smap GoString.lower_byte s = s.
Proof.
  induction s as [|c s IH]; simpl; [split; reflexivity|].
  intros H. apply andb_prop in H as [Hc Hs].
  destruct (IH Hs) as [IH1 IH2]. rewrite IH1, IH2.
  destruct (digit_or_dot_byte c Hc) as [Hb1 Hb2]. rewrite Hb1, Hb2.
  split; reflexivity.
Qed.

Lemma prefix_empty (s : string) : String.prefix "" s = true.
Proof. destruct s; reflexivity. Qed.

(** Lower-casing leaves a dotted address as it is. *)
Lemma ToLower_dotted (f : string -> string) (a b c d : Z) :
  octet a -> octet b -> octet c -> octet d ->
  GoString.ToLower f (dotted a b c d) = dotted a b c d.
Proof.
  intros Ha Hb Hc Hd.
  destruct (digit_or_dot_ascii _ (dotted_digits a b c d Ha Hb Hc Hd)) as [H1 H2].
  unfold GoString.ToLower. rewrite H1. exact H2.
Qed.

(** The host rule: a URL that parses and whose lower-cased hostname the
    rule matches is rejected. *)
Lemma ValidateLongURL_host_rule (lib : GoLib) (u : string) (p : Url.URL) :
  url_Parse lib u = Ok p ->
  host_blocked (GoString.ToLower (unicode_ToLower lib) (Url.Hostname p)) = true ->
  exists e, ValidateLongURL lib u = Some e.
Proof.
  intros Hp Hb. unfold ValidateLongURL. rewrite Hp.
  destruct (MaxURLLength <? GoString.len u); [eexists; reflexivity|].
  destruct (negb (String.eqb (Url.Scheme p) "http")
            && negb (String.eqb (Url.Scheme p) "https"));
    [eexists; reflexivity|].
  unfold host_blocked in Hb. rewrite Hb. eexists; reflexivity.
Qed.

(** A URL that passes the length, parsing and scheme rules is accepted
    exactly when the host rule does not match. *)
Lemma ValidateLongURL_host_only (lib : GoLib) (u : string) (p : Url.URL) :
  GoString.len u <= MaxURLLength ->
  url_Parse lib u = Ok p ->
  Url.Scheme p = "http" \/ Url.Scheme p = "https" ->
  ValidateLongURL lib u
  = if host_blocked (GoString.ToLower (unicode_ToLower lib) (Url.Hostname p))
    then Some (Errorf "internal or private URLs are not allowed")
    else None.
Proof.
  intros Hl Hp Hs. unfold ValidateLongURL. rewrite Hp.
  replace (MaxURLLength <? GoString.len u) with false
    by (symmetry; apply Z.ltb_ge; exact Hl).
  replace (negb (String.eqb (Url.Scheme p) "http")
           && negb (String.eqb (Url.Scheme p) "https")) with false
    by (destruct Hs as [-> | ->]; reflexivity).
  reflexivity.
Qed.

(** C4, as stated, fails: 172.20.0.1 lies in 172.16.0.0/12 and the URL is
    accepted. *)
Lemma validate_accepts_172_20 :
  ~ (forall (u : string) (p : Url.URL),
       url_Parse golib u = Ok p ->
       internal_host private_range_spec (Url.Hostname p) ->
       ValidateLongURL golib u <> None).
Proof.
  intros H.
  refine (H "http://172.20.0.1/"
            (Url.mkURL "http" "" None "172.20.0.1" "/" false "" false "")
            eq_refl _ eq_refl).
  right. exists 172, 20, 0, 1. unfold octet, private_range_spec.
  repeat split; lia.
Qed.

(** C4, amended.  A URL whose hostname is localhost, 127.0.0.1 or ::1, or
    a dotted-decimal address of 10.0.0.0/8, 192.168.0.0/16 or
    172.16.0.0/16, is rejected with a validation error. *)
Theorem validate_rejects_internal (lib : GoLib) (u : string) (p : Url.URL) :
  url_Parse lib u = Ok p ->
  internal_host private_range_code (Url.Hostname p) ->
  exists e, ValidateLongURL lib u = Some e.
Proof.
  intros Hp Hi. apply (ValidateLongURL_host_rule lib u p Hp).
  destruct Hi as [Hl | (a & b & c & d & Ha & Hb & Hc & Hd & Hr & Hh)].
  - destruct Hl as [-> | [-> | ->]]; reflexivity.
  - rewrite Hh, ToLower_dotted by assumption.
    unfold dotted, host_blocked, GoString.HasPrefix.
    destruct Hr as [-> | [[-> ->] | [-> ->]]];
      cbn; rewrite prefix_empty; rewrite ?orb_true_r; reflexivity.
Qed.

Lemma validate_rejects_internal_witness :
  exists e, ValidateLongURL golib "http://10.1.2.3/x" = Some e.
Proof.
  apply (validate_rejects_internal golib "http://10.1.2.3/x"
           (Url.mkURL "http" "" None "10.1.2.3" "/x" false "" false "")).
  - reflexivity.
  - right. exists 10, 1, 2, 3. unfold octet, private_range_code.
    repeat split; lia.
Defined.

(** A URL with an empty hostname passes the host rule. *)
Lemma ValidateLongURL_empty_host (lib : GoLib) (u : string) (p : Url.URL) :
  GoString.len u <= MaxURLLength ->
  url_Parse lib u = Ok p ->
  Url.Scheme p = "http" \/ Url.Scheme p = "https" ->
  Url.Hostname p = "" ->
  ValidateLongURL lib u = None.
Proof.
  intros Hl Hp Hs Hh.
  rewrite (ValidateLongURL_host_only lib u p Hl Hp Hs), Hh. reflexivity.
Qed.

(** C10.  The host rule does not match the empty hostname, and there are
    inputs that parse, have the scheme http and an empty hostname, and are
    accepted: the two URLs below, a scheme followed by two or three
    slashes. *)
Theorem validate_accepts_empty_host :
  (forall f, host_blocked (GoString.ToLower f "") = false)
  /\ (exists p, Url.Parse "http://" = Ok p
                /\ Url.Scheme p = "http" /\ Url.Hostname p = ""
                /\ ValidateLongURL golib "http://" = None)
  /\ (exists p, Url.Parse "http:///path" = Ok p
                /\ Url.Scheme p = "http" /\ Url.Hostname p = ""
                /\ ValidateLongURL golib "http:///path" = None).
Proof.
  split; [intros f; reflexivity|].
  split; eexists; (split; [reflexivity|]); repeat split; reflexivity.
Qed.

(** ** Shortening and resolution *)

(** C8.  A long URL the validator rejects makes [HandleShortURLRequest]
    return the validation error at once: the world is the one it was
    given, so no statement was sent and the table is unchanged. *)
Theorem shorten_rejected_no_store (lib : GoLib) (ddl : Schema)
  (longURL : string) (w : World) (e : error) :
  ValidateLongURL lib longURL = Some e ->
  HandleShortURLRequest lib ddl longURL w
  = (w, Err (Wrapf "validation failed: " e)).
Proof. intros H. unfold HandleShortURLRequest. rewrite H. reflexivity. Qed.

Lemma shorten_rejected_no_store_witness :
  HandleShortURLRequest golib create_table_sql_rev "ftp://example.com" init_world
  = (init_world,
     Err (Wrapf "validation failed: "
            (Errorf "URL must use http or https scheme"))).
Proof.
  apply (shorten_rejected_no_store golib create_table_sql_rev
           "ftp://example.com" init_world).
  reflexivity.
Defined.

Lemma len_not_7 (s : string) :
  negb (GoString.len s =? 7) = negb (Nat.eqb (String.length s) 7).
Proof.
  unfold GoString.len. f_equal.
  destruct (Nat.eqb_spec (String.length s) 7) as [E|E].
  - rewrite E. reflexivity.
  - apply Z.eqb_neq. lia.
Qed.

Lemma HandleRedirectRequest_length (key : string) (w : World) :
  String.length key <> 7%nat ->
  HandleRedirectRequest key w = (w, Err (Errorf "invalid short key length")).
Proof.
  intros H. unfold HandleRedirectRequest. rewrite len_not_7.
  apply Nat.eqb_neq in H. rewrite H. reflexivity.
Qed.

(** A key of seven bytes is sent to the database, whatever its
    characters. *)
Lemma HandleRedirectRequest_sends (key : string) (w : World) :
  String.length key = 7%nat ->
  exists e,
    log (fst (HandleRedirectRequest key w))
    = log w ++ [mkEvent (UpdateClickCount key) e].
Proof.
  intros H. unfold HandleRedirectRequest. rewrite len_not_7, H.
  cbn [Nat.eqb negb]. unfold Db.update_click_count.
  destruct (Db.pending w) as [f|];
    [destruct f
    |destruct (existsb _ (table w));
      [|destruct (find (Db.has_key key) (table w))]];
    eexists; reflexivity.
Qed.

(** C6, as stated, fails: [HandleRedirectRequest] does not look at the
    characters of a key.  The key "abc$123" has seven bytes, one of them
    outside [A-Za-z0-9_-]; on the empty table the [UPDATE] is sent for it
    and the answer is "short URL not found", not an invalid-key error. *)
Lemma resolve_bad_character_reaches_store :
  String.length "abc$123" = 7%nat
  /\ GoString.sall key_char "abc$123" = false
  /\ HandleRedirectRequest "abc$123" init_world
     = (mkWorld [] [] [mkEvent (UpdateClickCount "abc$123") (Some ErrNoRows)],
        Err (Errorf "short URL not found")).
Proof. repeat split. Qed.

(** C6, amended.  The length rule is in [HandleRedirectRequest], the
    character rule only in the handler [handleRedirect] that calls it.
    For a key whose length is not seven or which holds a character outside
    [A-Za-z0-9_-]: the handler sends no statement, leaves the world as it
    was and answers with an error, which is "invalid short key format"
    (400) for a bad character and "invalid short key length" (400) for a
    bad length, except that the empty key is answered "short key required"
    (404) and a key under "api/" the plain 404; [HandleRedirectRequest]
    returns the length error, with the world as it was, when the key is
    not seven bytes long, and sends the [UPDATE] for every key of seven
    bytes, those with a bad character included. *)
Theorem resolve_rejects_malformed (key : string) (w : World) :
  String.length key <> 7%nat \/ GoString.sall key_char key = false ->
  handleRedirect ("/" ++ key) w = (w, key_rejection key)
  /\ (String.length key <> 7%nat ->
      HandleRedirectRequest key w
      = (w, Err (Errorf "invalid short key length")))
  /\ (String.length key = 7%nat ->
      exists e,
        log (fst (HandleRedirectRequest key w))
        = log w ++ [mkEvent (UpdateClickCount key) e]).
Proof.
  intros H.
  split; [|split; [apply HandleRedirectRequest_length
                  |apply HandleRedirectRequest_sends]].
  unfold handleRedirect, key_rejection.
  change (GoString.HasPrefix ("/" ++ key) "/api/")
    with (GoString.HasPrefix key "api/").
  destruct (GoString.HasPrefix key "api/"); [reflexivity|].
  cbn [append].
  destruct (String.eqb key ""); [reflexivity|].
  destruct (GoString.sall key_char key) eqn:Hc; [|reflexivity].
  destruct H as [H|H]; [|discriminate H].
  rewrite (HandleRedirectRequest_length key w H). reflexivity.
Qed.

Lemma resolve_rejects_malformed_witness :
  handleRedirect ("/" ++ "abc$123") init_world
  = (init_world, HttpError "invalid short key format" 400)
  /\ (String.length "abc$123" <> 7%nat ->
      HandleRedirectRequest "abc$123" init_world
      = (init_world, Err (Errorf "invalid short key length")))
  /\ (String.length "abc$123" = 7%nat ->
      exists e,
        log (fst (HandleRedirectRequest "abc$123" init_world))
        = log init_world ++ [mkEvent (UpdateClickCount "abc$123") e]).
Proof.
  apply (resolve_rejects_malformed "abc$123" init_world).
  right. reflexivity.
Defined.

(** *** The retry loop *)

(** What a statement leaves of the world, field by field; the error, when
    there is one, is the driver's own. *)
Lemma saveURLToDatabase_spec (ddl : Schema) (k u : string) (w : World) :
  exists o : option error,
    saveURLToDatabase ddl k u w
    = (Db.after w
         (match o with
          | None => table w ++ [mkRow k u (click_count_default ddl)]
          | Some _ => table w
          end)
         (InsertURL k u) o,
       option_map (Wrapf insert_failed) o)
    /\ match o with
       | Some e => driver_error e
       | None => True
       end.
Proof.
  unfold saveURLToDatabase, Db.insert_url.
  destruct (Db.pending w) as [f|].
  - exists (Some (fault_error f)). split; [reflexivity|]. destruct f; exact I.
  - destruct (7 <? GoString.len k).
    + exists (Some Db.value_too_long). split; [reflexivity | exact I].
    + destruct (existsb (Db.has_key k) (table w)).
      * exists (Some Db.unique_violation). split; [reflexivity | exact I].
      * exists None. split; [reflexivity | exact I].
Qed.

(** [errors.As] looks through the wrapping of [saveURLToDatabase]. *)
Lemma isCollisionError_wrapped (e : error) :
  isCollisionError (Some (Wrapf insert_failed e)) = isCollisionError (Some e).
Proof. reflexivity. Qed.


(** The loop with [S m] iterations to go: a run of collisions [cs], at most
    [m] of them, then one last insert with outcome [o] that ends the
    loop. *)
Lemma retry_loop_spec (ddl : Schema) (longUrl : string) (m : nat) :
  forall (attempt : Z) (sk : string) (err : option error) (w : World),
  exists (cs : list error) (o : option error),
    (List.length cs <= m)%nat
    /\ Forall (fun e => isCollisionError (Some e) = true) cs
    /\ log (fst (retry_loop ddl (S m) attempt sk err longUrl w))
       = log w ++ insert_events longUrl attempt (map Some cs ++ [o])
    /\ snd (retry_loop ddl (S m) attempt sk err longUrl w)
       = match o with
         | None =>
             LoopDone
               (generateShortURLKey longUrl (attempt + Z.of_nat (List.length cs)))
               None
         | Some e =>
             if isCollisionError (Some e)
             then LoopDone
                    (generateShortURLKey longUrl
                       (attempt + Z.of_nat (List.length cs)))
                    (Some (Wrapf insert_failed e))
             else LoopReturn (Wrapf "failed to save url: " (Wrapf insert_failed e))
         end
    /\ (match o with
        | Some e => isCollisionError (Some e) = true -> List.length cs = m
        | None => True
        end)
    /\ Forall driver_error cs
    /\ (match o with
        | Some e => driver_error e
        | None => True
        end).
Proof.
  induction m as [|m IH]; intros attempt sk err w.
  - cbn [retry_loop].
    destruct (saveURLToDatabase_spec ddl (generateShortURLKey longUrl attempt)
                longUrl w) as [o [Ho Hd]].
    rewrite Ho. exists [], o.
    replace (attempt + Z.of_nat (List.length (@nil error))) with attempt
      by (cbn; lia).
    destruct o as [e|]; cbn [option_map].
    + rewrite isCollisionError_wrapped.
      destruct (isCollisionError (Some e)); cbn; repeat split; auto.
    + cbn. repeat split; auto.
  - remember (S m) as n eqn:En.
    cbn [retry_loop].
    destruct (saveURLToDatabase_spec ddl (generateShortURLKey longUrl attempt)
                longUrl w) as [o [Ho Hd]].
    rewrite Ho.
    destruct o as [e|]; cbn [option_map].
    + rewrite isCollisionError_wrapped.
      destruct (isCollisionError (Some e)) eqn:Ec.
      * subst n.
        destruct (IH (attempt + 1) (generateShortURLKey longUrl attempt)
                    (Some (Wrapf insert_failed e))
                    (Db.after w (table w)
                       (InsertURL (generateShortURLKey longUrl attempt) longUrl)
                       (Some e)))
          as (cs & o & Hlen & Hcs & Hlog & Hexit & Hfull & Hraw & Hrawo).
        exists (e :: cs), o.
        replace (attempt + Z.of_nat (List.length (e :: cs)))
          with (attempt + 1 + Z.of_nat (List.length cs))
          by (cbn [List.length]; lia).
        split; [cbn [List.length]; lia|].
        split; [constructor; assumption|].
        split; [|split; [|split; [|split]]].
        -- rewrite Hlog. cbn [Db.after log map app insert_events].
           rewrite <- app_assoc. reflexivity.
        -- exact Hexit.
        -- destruct o as [e'|]; [|exact I].
           intros Hc. cbn [List.length]. rewrite (Hfull Hc). reflexivity.
        -- constructor; assumption.
        -- exact Hrawo.
      * exists [], (Some e). rewrite Ec.
        cbn. repeat split; auto; try lia; try discriminate.
    + exists [], None. cbn.
      replace (attempt + 0) with attempt by lia.
      repeat split; auto; lia.
Qed.

Lemma CheckDbForLongURL_log (longURL : string) (w w1 : World)
  (r : result error string) :
  CheckDbForLongURL longURL w = (w1, r) ->
  table w1 = table w /\ faults w1 = tl (faults w)
  /\ exists e, log w1 = log w ++ [mkEvent (SelectShortKey longURL) e].
Proof.
  unfold CheckDbForLongURL, Db.select_short_key.
  destruct (Db.pending w) as [f|].
  - destruct f; cbn; intros [= <- <-]; repeat split; eexists; reflexivity.
  - destruct (find (Db.has_url longURL) (table w));
      cbn; intros [= <- <-]; repeat split; eexists; reflexivity.
Qed.




(** On that table the first insert collides and the second, with salt 1,
    goes through. *)
Example shorten_after_one_collision :
  HandleShortURLRequest golib create_table_sql_rev
    "https://example.com/a" collided_world
  = (mkWorld
       [mkRow "ODAbUmv" "https://other.example/" 0;
        mkRow (generateShortURLKey "https://example.com/a" 1)
              "https://example.com/a" 0]
       []
       [mkEvent (SelectShortKey "https://example.com/a") (Some ErrNoRows);
        mkEvent (InsertURL "ODAbUmv" "https://example.com/a")
                (Some Db.unique_violation);
        mkEvent (InsertURL (generateShortURLKey "https://example.com/a" 1)
                           "https://example.com/a") None],
     Ok ("http://shan747.urs/"
         ++ generateShortURLKey "https://example.com/a" 1)%string).
Proof. vm_compute. reflexivity. Qed.

(** *** Resolution *)

Lemma find_bump (k k' : string) (t : list Row) :
  find (Db.has_key k') (map (Db.bump k) t)
  = option_map (Db.bump k) (find (Db.has_key k') t).
Proof.
  induction t as [|r t IH]; [reflexivity|].
  cbn [map find].
  replace (Db.has_key k' (Db.bump k r)) with (Db.has_key k' r)
    by (unfold Db.bump; destruct (Db.has_key k r); reflexivity).
  destruct (Db.has_key k' r); [reflexivity | exact IH].
Qed.

Lemma find_has_key (k : string) (t : list Row) (r : Row) :
  find (Db.has_key k) t = Some r -> Db.has_key k r = true.
Proof. intros H. apply find_some in H. apply H. Qed.

(** The counter of the key that is bumped goes up by one. *)
Lemma clicks_bump_same (k : string) (t : list Row) (r : Row) :
  find (Db.has_key k) t = Some r ->
  clicks k (map (Db.bump k) t) = Some (click_count r + 1).
Proof.
  intros H. unfold clicks. rewrite find_bump, H. cbn [option_map].
  unfold Db.bump. rewrite (find_has_key k t r H). reflexivity.
Qed.

(** The counters of the other keys stay. *)
Lemma clicks_bump_other (k k' : string) (t : list Row) :
  k' <> k -> clicks k' (map (Db.bump k) t) = clicks k' t.
Proof.
  intros Hne. unfold clicks. rewrite find_bump.
  destruct (find (Db.has_key k') t) as [r|] eqn:E; [|reflexivity].
  cbn [option_map]. unfold Db.bump.
  destruct (Db.has_key k r) eqn:Ek; [|reflexivity].
  exfalso. apply Hne.
  apply find_has_key in E. unfold Db.has_key in *.
  apply String.eqb_eq in E, Ek. congruence.
Qed.

(** A successful [HandleRedirectRequest], spelled out. *)
Lemma HandleRedirectRequest_ok (key : string) (w w' : World) (l : string) :
  HandleRedirectRequest key w = (w', Ok l) ->
  String.length key = 7%nat
  /\ Db.pending w = None
  /\ exists r, find (Db.has_key key) (table w) = Some r
               /\ l = long_url r
               /\ w' = Db.after w (map (Db.bump key) (table w))
                         (UpdateClickCount key) None.
Proof.
  unfold HandleRedirectRequest. rewrite len_not_7.
  destruct (Nat.eqb_spec (String.length key) 7) as [E|E]; cbn [negb];
    [|discriminate].
  unfold Db.update_click_count.
  destruct (Db.pending w) as [f|]; [destruct f; discriminate|].
  destruct (existsb _ (table w)); [discriminate|].
  destruct (find (Db.has_key key) (table w)) as [r|]; [|discriminate].
  cbn. intros [= <- <-]. repeat split; auto. exists r. auto.
Qed.

Lemma resolve_times_ok (k : nat) (key : string) :
  forall (w w' : World) (rs : list (result error string)) (c : Z),
    resolve_times k key w = (w', rs) ->
    Forall is_ok rs ->
    clicks key (table w) = Some c ->
    clicks key (table w') = Some (c + Z.of_nat k).
Proof.
  induction k as [|k IH]; intros w w' rs c Hrun Hok Hc.
  - cbn in Hrun. injection Hrun as <- <-. rewrite Hc. f_equal. cbn. lia.
  - cbn [resolve_times] in Hrun.
    destruct (HandleRedirectRequest key w) as [w1 r] eqn:H1.
    destruct (resolve_times k key w1) as [w2 rs'] eqn:H2.
    injection Hrun as <- <-.
    inversion Hok as [|? ? Hr Hrs]; subst.
    destruct r as [l|e]; [|destruct Hr].
    apply HandleRedirectRequest_ok in H1 as (_ & _ & r & Hf & _ & ->).
    assert (Hc1 : clicks key (table (Db.after w (map (Db.bump key) (table w))
                                       (UpdateClickCount key) None))
                  = Some (c + 1)).
    { cbn [Db.after table]. rewrite (clicks_bump_same key (table w) r Hf).
      unfold clicks in Hc. rewrite Hf in Hc. cbn in Hc.
      injection Hc as <-. reflexivity. }
    rewrite (IH _ _ _ _ H2 Hrs Hc1). f_equal. lia.
Qed.

(** C2.  For a key of seven characters: a successful
    [HandleRedirectRequest] returns the long URL of the mapping of the key
    and adds exactly one to its click count, with one [UPDATE] statement
    and nothing else; [k] successful calls in a row add exactly [k]; and
    when the key has no mapping the result is the error
    "short URL not found", while a failure of the statement is reported as
    "database query failed", a different error with a different text. *)
Theorem resolve_counts_clicks (key : string) (w : World) :
  String.length key = 7%nat ->
  (forall (w' : World) (l : string),
      HandleRedirectRequest key w = (w', Ok l) ->
      exists r,
        find (Db.has_key key) (table w) = Some r
        /\ l = long_url r
        /\ clicks key (table w') = Some (click_count r + 1)
        /\ log w' = log w ++ [mkEvent (UpdateClickCount key) None])
  /\ (forall (k : nat) (w' : World) (rs : list (result error string)) (c : Z),
        resolve_times k key w = (w', rs) ->
        Forall is_ok rs ->
        clicks key (table w) = Some c ->
        clicks key (table w') = Some (c + Z.of_nat k))
  /\ (clicks key (table w) = None ->
      HandleRedirectRequest key w
      = match Db.pending w with
        | None =>
            (Db.after w (table w) (UpdateClickCount key) (Some ErrNoRows),
             Err (Errorf "short URL not found"))
        | Some f =>
            (Db.after w (table w) (UpdateClickCount key) (Some (fault_error f)),
             Err (Wrapf "database query failed: " (fault_error f)))
        end)
  /\ (forall e : error,
        Error_text (Wrapf "database query failed: " e)
        <> Error_text (Errorf "short URL not found")).
Proof.
  intros Hlen. split; [|split; [|split]].
  - intros w' l H.
    apply HandleRedirectRequest_ok in H as (_ & _ & r & Hf & Hl & ->).
    exists r. repeat split; auto.
    apply (clicks_bump_same key (table w) r Hf).
  - intros k. apply resolve_times_ok.
  - intros Hnone. unfold HandleRedirectRequest. rewrite len_not_7, Hlen.
    cbn [Nat.eqb negb]. unfold Db.update_click_count.
    destruct (Db.pending w) as [f|]; [destruct f; reflexivity|].
    unfold clicks in Hnone.
    destruct (find (Db.has_key key) (table w)) as [r|] eqn:Hf;
      [discriminate Hnone|].
    replace (existsb (fun r => Db.has_key key r && (click_count r =? Db.INT_MAX))
               (table w)) with false; [reflexivity|].
    symmetry. apply not_true_is_false. intros Hex.
    apply existsb_exists in Hex as (r & Hin & Hr).
    apply andb_prop in Hr as [Hk _].
    rewrite (find_none _ _ Hf r Hin) in Hk. discriminate Hk.
  - intros e H. cbn in H. discriminate H.
Qed.

Lemma resolve_counts_clicks_witness :
  clicks "ODAbUmv" (table (fst (resolve_times 3 "ODAbUmv" one_mapping_world)))
  = Some (0 + 3).
Proof.
  destruct (resolve_counts_clicks "ODAbUmv" one_mapping_world eq_refl)
    as (_ & H & _).
  apply (H 3%nat _ (snd (resolve_times 3 "ODAbUmv" one_mapping_world)) 0).
  - vm_compute. reflexivity.
  - vm_compute. repeat constructor.
  - vm_compute. reflexivity.
Defined.

(** *** Tables the program builds *)

(** The table after the retry loop: the loop ends on a successful insert,
    which added the row of its key with the default click count, or the
    table is as it was. *)
Lemma retry_loop_table (ddl : Schema) (longUrl : string) (m : nat) :
  forall (attempt : Z) (sk : string) (err : option error) (w : World),
    (exists i,
        snd (retry_loop ddl (S m) attempt sk err longUrl w)
        = LoopDone (generateShortURLKey longUrl i) None
        /\ table (fst (retry_loop ddl (S m) attempt sk err longUrl w))
           = table w ++ [mkRow (generateShortURLKey longUrl i) longUrl
                               (click_count_default ddl)])
    \/ ((forall k, snd (retry_loop ddl (S m) attempt sk err longUrl w)
                   <> LoopDone k None)
        /\ table (fst (retry_loop ddl (S m) attempt sk err longUrl w))
           = table w).
Proof.
  induction m as [|m IH]; intros attempt sk err w.
  - cbn [retry_loop].
    destruct (saveURLToDatabase_spec ddl (generateShortURLKey longUrl attempt)
                longUrl w) as [[e|] [Ho _]]; rewrite Ho; cbn [option_map].
    + right. destruct (isCollisionError (Some (Wrapf insert_failed e)));
        cbn; split; auto; intros k; discriminate.
    + left. exists attempt. cbn. split; reflexivity.
  - remember (S m) as n eqn:En. cbn [retry_loop].
    destruct (saveURLToDatabase_spec ddl (generateShortURLKey longUrl attempt)
                longUrl w) as [[e|] [Ho _]]; rewrite Ho; cbn [option_map].
    + destruct (isCollisionError (Some (Wrapf insert_failed e))).
      * subst n.
        exact (IH (attempt + 1) (generateShortURLKey longUrl attempt)
                 (Some (Wrapf insert_failed e))
                 (Db.after w (table w)
                    (InsertURL (generateShortURLKey longUrl attempt) longUrl)
                    (Some e))).
      * right. cbn. split; auto; intros k; discriminate.
    + left. exists attempt. cbn. split; reflexivity.
Qed.

(** A shortening request that returns a short URL found the long URL under
    a key and left the table alone, or found none and added one row. *)
Lemma shorten_ok_cases (lib : GoLib) (ddl : Schema) (longUrl : string)
  (w w1 : World) (u : string) :
  HandleShortURLRequest lib ddl longUrl w = (w1, Ok u) ->
  ValidateLongURL lib longUrl = None
  /\ ((exists r,
         find (Db.has_url longUrl) (table w) = Some r
         /\ short_key r <> ""
         /\ table w1 = table w
         /\ generateFullShortURL lib (short_key r) = Ok u)
      \/ (exists i,
            (find (Db.has_url longUrl) (table w) = None
             \/ exists r, find (Db.has_url longUrl) (table w) = Some r
                          /\ short_key r = "")
            /\ table w1
               = table w ++ [mkRow (generateShortURLKey longUrl i) longUrl
                                   (click_count_default ddl)]
            /\ generateFullShortURL lib (generateShortURLKey longUrl i) = Ok u)).
Proof.
  unfold HandleShortURLRequest.
  destruct (ValidateLongURL lib longUrl); [discriminate|].
  intros H. split; [reflexivity|]. revert H.
  unfold CheckDbForLongURL, Db.select_short_key.
  destruct (Db.pending w) as [f|]; [destruct f; discriminate|].
  assert (Hloop : forall w0 : World,
    table w0 = table w ->
    (let '(w2, exit) :=
       retry_loop ddl (Z.to_nat MaxRetries) 0 "" None longUrl w0 in
     match exit with
     | LoopReturn e => (w2, Err e)
     | LoopDone _ (Some err) =>
         (w2, Err (Wrapf ("failed to save url after "
                          ++ GoString.itoa MaxRetries ++ " attempts: ")%string
                         err))
     | LoopDone shortKey None => (w2, generateFullShortURL lib shortKey)
     end) = (w1, Ok u) ->
    exists i,
      table w1 = table w ++ [mkRow (generateShortURLKey longUrl i) longUrl
                                   (click_count_default ddl)]
      /\ generateFullShortURL lib (generateShortURLKey longUrl i) = Ok u).
  { intros w0 Ht. change (Z.to_nat MaxRetries) with 5%nat.
    destruct (retry_loop_table ddl longUrl 4 0 "" None w0)
      as [(i & Hexit & Htab) | (Hexit & Htab)];
      destruct (retry_loop ddl 5 0 "" None longUrl w0) as [w2 exit];
      cbn [fst snd] in Hexit, Htab.
    - subst exit. intros [= <- Hu]. exists i. rewrite Htab, Ht. auto.
    - destruct exit as [e | k [e|]]; try discriminate.
      exfalso. apply (Hexit k). reflexivity. }
  destruct (find (Db.has_url longUrl) (table w)) as [r|] eqn:Hf.
  - cbn [is_ErrNoRows].
    destruct (String.eqb (short_key r) "") eqn:Ek; cbn [negb].
    + apply String.eqb_eq in Ek. rewrite Ek. intros H.
      apply Hloop in H; [|reflexivity]. destruct H as (i & Ht & Hu).
      right. exists i. split; [|split; assumption].
      right. exists r. split; [reflexivity | exact Ek].
    + intros [= <- Hu]. left. exists r.
      apply String.eqb_neq in Ek. repeat split; auto.
  - cbn [is_ErrNoRows String.eqb negb]. intros H.
    apply Hloop in H; [|reflexivity]. destruct H as (i & Ht & Hu).
    right. exists i. split; [left; reflexivity | split; assumption].
Qed.

(** Whatever it returns, a shortening request leaves the table as it was
    or adds one row: a generated key, the long URL, the default click
    count. *)
Lemma shorten_table (lib : GoLib) (ddl : Schema) (longUrl : string) (w : World) :
  table (fst (HandleShortURLRequest lib ddl longUrl w)) = table w
  \/ exists i,
       table (fst (HandleShortURLRequest lib ddl longUrl w))
       = table w ++ [mkRow (generateShortURLKey longUrl i) longUrl
                           (click_count_default ddl)].
Proof.
  unfold HandleShortURLRequest.
  destruct (ValidateLongURL lib longUrl); [left; reflexivity|].
  destruct (CheckDbForLongURL longUrl w) as [w1 r] eqn:Hc.
  apply CheckDbForLongURL_log in Hc as (Ht & _ & _).
  destruct r as [k|e]; [|left; exact Ht].
  destruct (negb (String.eqb k "")); [left; exact Ht|].
  change (Z.to_nat MaxRetries) with 5%nat.
  destruct (retry_loop_table ddl longUrl 4 0 k None w1)
    as [(i & Hexit & Htab) | (Hexit & Htab)];
    destruct (retry_loop ddl 5 0 k None longUrl w1) as [w2 exit];
    cbn [fst snd] in Hexit, Htab.
  - right. exists i. subst exit. cbn [fst]. rewrite Htab, Ht. reflexivity.
  - left. destruct exit as [e | k' [e|]]; cbn [fst]; rewrite Htab; exact Ht.
Qed.

(** A redirect leaves the table as it was or bumps the counter of its
    key. *)
Lemma resolve_table (key : string) (w : World) :
  table (fst (HandleRedirectRequest key w)) = table w
  \/ (table (fst (HandleRedirectRequest key w)) = map (Db.bump key) (table w)
      /\ is_ok (snd (HandleRedirectRequest key w))).
Proof.
  unfold HandleRedirectRequest.
  destruct (negb (GoString.len key =? 7)); [left; reflexivity|].
  unfold Db.update_click_count.
  destruct (Db.pending w) as [f|]; [destruct f; left; reflexivity|].
  destruct (existsb _ (table w)); [left; reflexivity|].
  destruct (find (Db.has_key key) (table w)); [|left; reflexivity].
  right. split; [reflexivity | exact I].
Qed.

Lemma redirect_table (path : string) (w : World) :
  fst (handleRedirect path w) = w
  \/ exists key, fst (handleRedirect path w) = fst (HandleRedirectRequest key w).
Proof.
  unfold handleRedirect.
  destruct (GoString.HasPrefix path "/api/"); [left; reflexivity|].
  destruct path as [|c key]; [left; reflexivity|].
  destruct (String.eqb key ""); [left; reflexivity|].
  destruct (negb (GoString.sall key_char key)); [left; reflexivity|].
  right. exists key.
  destruct (HandleRedirectRequest key w) as [w' [l|e]]; [reflexivity|].
  destruct (GoString.Contains (Error_text e) "invalid short key length");
    [reflexivity|].
  destruct (GoString.Contains (Error_text e) "not found"); reflexivity.
Qed.

Lemma keys_ok_bump (key : string) (t : list Row) :
  keys_ok t -> keys_ok (map (Db.bump key) t).
Proof.
  unfold keys_ok. intros H. apply Forall_map.
  eapply Forall_impl; [|exact H].
  intros r Hr. unfold Db.bump. destruct (Db.has_key key r); exact Hr.
Qed.

Lemma keys_ok_resolve (key : string) (w : World) :
  keys_ok (table w) -> keys_ok (table (fst (HandleRedirectRequest key w))).
Proof.
  intros H. destruct (resolve_table key w) as [-> | [-> _]];
    [exact H | apply keys_ok_bump, H].
Qed.

(** Every key of a reachable table has seven characters. *)
Lemma reachable_keys_ok (lib : GoLib) (ddl : Schema) (w : World) :
  reachable lib ddl w -> keys_ok (table w).
Proof.
  induction 1 as [fs | w longUrl _ IH | w key _ IH | w path _ IH].
  - constructor.
  - destruct (shorten_table lib ddl longUrl w) as [-> | [i ->]]; [exact IH|].
    apply Forall_app. split; [exact IH|].
    constructor; [apply generateShortURLKey_length | constructor].
  - apply keys_ok_resolve, IH.
  - destruct (redirect_table path w) as [-> | [key ->]];
      [exact IH | apply keys_ok_resolve, IH].
Qed.

(** *** What a request does to the table *)

Lemma saveURLToDatabase_cases (ddl : Schema) (k u : string) (w : World) :
  (saveURLToDatabase ddl k u w
   = (Db.after w (table w ++ [mkRow k u (click_count_default ddl)])
        (InsertURL k u) None, None)
   /\ Db.pending w = None
   /\ existsb (Db.has_key k) (table w) = false)
  \/ exists e,
       saveURLToDatabase ddl k u w
       = (Db.after w (table w) (InsertURL k u) (Some e),
          Some (Wrapf insert_failed e)).
Proof.
  unfold saveURLToDatabase, Db.insert_url.
  destruct (Db.pending w) as [f|].
  - right. exists (fault_error f). reflexivity.
  - destruct (7 <? GoString.len k).
    + right. exists Db.value_too_long. reflexivity.
    + destruct (existsb (Db.has_key k) (table w)) eqn:E.
      * right. exists Db.unique_violation. reflexivity.
      * left. repeat split; reflexivity.
Qed.

(** The retry loop ends on a successful insert of a key that was free, for
    a salt among those it may try, or leaves the table as it was. *)
Lemma retry_loop_insert (ddl : Schema) (longUrl : string) (m : nat) :
  forall (attempt : Z) (sk : string) (err : option error) (w : World),
    (exists i,
        attempt <= i < attempt + Z.of_nat (S m)
        /\ snd (retry_loop ddl (S m) attempt sk err longUrl w)
           = LoopDone (generateShortURLKey longUrl i) None
        /\ table (fst (retry_loop ddl (S m) attempt sk err longUrl w))
           = table w ++ [mkRow (generateShortURLKey longUrl i) longUrl
                               (click_count_default ddl)]
        /\ existsb (Db.has_key (generateShortURLKey longUrl i)) (table w) = false)
    \/ ((forall k, snd (retry_loop ddl (S m) attempt sk err longUrl w)
                   <> LoopDone k None)
        /\ table (fst (retry_loop ddl (S m) attempt sk err longUrl w))
           = table w).
Proof.
  induction m as [|m IH]; intros attempt sk err w.
  - cbn [retry_loop].
    destruct (saveURLToDatabase_cases ddl (generateShortURLKey longUrl attempt)
                longUrl w) as [(Ho & _ & Hfree) | [e Ho]]; rewrite Ho.
    + left. exists attempt. cbn. repeat split; auto; lia.
    + right. destruct (isCollisionError (Some (Wrapf insert_failed e)));
        cbn; split; auto; intros k; discriminate.
  - remember (S m) as n eqn:En. cbn [retry_loop].
    destruct (saveURLToDatabase_cases ddl (generateShortURLKey longUrl attempt)
                longUrl w) as [(Ho & _ & Hfree) | [e Ho]]; rewrite Ho.
    + left. exists attempt. cbn [fst snd Db.after table].
      repeat split; auto; lia.
    + destruct (isCollisionError (Some (Wrapf insert_failed e))).
      * subst n.
        destruct (IH (attempt + 1) (generateShortURLKey longUrl attempt)
                    (Some (Wrapf insert_failed e))
                    (Db.after w (table w)
                       (InsertURL (generateShortURLKey longUrl attempt) longUrl)
                       (Some e)))
          as [(i & Hi & Hexit & Htab & Hfree) | H].
        -- left. exists i. repeat split; auto; lia.
        -- right. exact H.
      * right. cbn. split; auto; intros k; discriminate.
Qed.

(** A shortening request leaves the table as it was, or adds the row of a
    key that was free, generated from a valid long URL that had no key. *)
Lemma shorten_effect (lib : GoLib) (ddl : Schema) (longUrl : string) (w : World) :
  table (fst (HandleShortURLRequest lib ddl longUrl w)) = table w
  \/ exists i,
       0 <= i < MaxRetries
       /\ ValidateLongURL lib longUrl = None
       /\ table (fst (HandleShortURLRequest lib ddl longUrl w))
          = table w ++ [mkRow (generateShortURLKey longUrl i) longUrl
                              (click_count_default ddl)]
       /\ existsb (Db.has_key (generateShortURLKey longUrl i)) (table w) = false
       /\ (find (Db.has_url longUrl) (table w) = None
           \/ exists r, find (Db.has_url longUrl) (table w) = Some r
                        /\ short_key r = "")
       /\ snd (HandleShortURLRequest lib ddl longUrl w)
          = generateFullShortURL lib (generateShortURLKey longUrl i).
Proof.
  unfold HandleShortURLRequest.
  destruct (ValidateLongURL lib longUrl) eqn:Hv; [left; reflexivity|].
  destruct (CheckDbForLongURL longUrl w) as [w1 r] eqn:Hc.
  assert (Hfound : match r with
                   | Ok k =>
                       if String.eqb k "" then
                         find (Db.has_url longUrl) (table w) = None
                         \/ exists r0, find (Db.has_url longUrl) (table w) = Some r0
                                       /\ short_key r0 = ""
                       else True
                   | Err _ => True
                   end).
  { revert Hc. unfold CheckDbForLongURL, Db.select_short_key.
    destruct (Db.pending w) as [f|]; [destruct f; intros [= <- <-]; exact I|].
    destruct (find (Db.has_url longUrl) (table w)) as [r0|];
      cbn [is_ErrNoRows]; intros [= <- <-].
    - destruct (String.eqb (short_key r0) "") eqn:E; [|exact I].
      right. exists r0. split; [reflexivity|]. apply String.eqb_eq, E.
    - left. reflexivity. }
  apply CheckDbForLongURL_log in Hc as (Ht & _ & _).
  destruct r as [k|e]; [|left; exact Ht].
  destruct (String.eqb k "") eqn:Ek; cbn [negb]; [|left; exact Ht].
  change (Z.to_nat MaxRetries) with 5%nat.
  destruct (retry_loop_insert ddl longUrl 4 0 k None w1)
    as [(i & Hi & Hexit & Htab & Hfree) | (Hexit & Htab)];
    destruct (retry_loop ddl 5 0 k None longUrl w1) as [w2 exit];
    cbn [fst snd] in Hexit, Htab.
  - right. exists i. subst exit. cbn [fst snd]. rewrite Htab, Ht.
    rewrite Ht in Hfree. unfold MaxRetries.
    repeat split; auto; lia.
  - left. destruct exit as [e | k' [e|]]; cbn [fst]; rewrite Htab; exact Ht.
Qed.

(** A redirect request leaves the table as it was, or bumps the rows of its
    key, none of which had the largest count an [INTEGER] holds. *)
Lemma resolve_effect (key : string) (w : World) :
  table (fst (HandleRedirectRequest key w)) = table w
  \/ (table (fst (HandleRedirectRequest key w)) = map (Db.bump key) (table w)
      /\ existsb (fun r => Db.has_key key r && (click_count r =? Db.INT_MAX))
                 (table w) = false).
Proof.
  unfold HandleRedirectRequest.
  destruct (negb (GoString.len key =? 7)); [left; reflexivity|].
  unfold Db.update_click_count.
  destruct (Db.pending w) as [f|]; [destruct f; left; reflexivity|].
  destruct (existsb _ (table w)) eqn:E; [left; reflexivity|].
  destruct (find (Db.has_key key) (table w)); [|left; reflexivity].
  right. split; reflexivity.
Qed.

Lemma mapping_bump (key : string) (r : Row) : mapping (Db.bump key r) = mapping r.
Proof. unfold Db.bump. destruct (Db.has_key key r); reflexivity. Qed.

Lemma map_mapping_bump (key : string) (t : list Row) :
  map mapping (map (Db.bump key) t) = map mapping t.
Proof.
  rewrite map_map. apply map_ext. intros r. apply mapping_bump.
Qed.

Lemma map_short_key_bump (key : string) (t : list Row) :
  map short_key (map (Db.bump key) t) = map short_key t.
Proof.
  rewrite map_map. apply map_ext. intros r.
  unfold Db.bump. destruct (Db.has_key key r); reflexivity.
Qed.

Lemma map_long_url_bump (key : string) (t : list Row) :
  map long_url (map (Db.bump key) t) = map long_url t.
Proof.
  rewrite map_map. apply map_ext. intros r.
  unfold Db.bump. destruct (Db.has_key key r); reflexivity.
Qed.

Lemma key_free_not_in (k : string) (t : list Row) :
  existsb (Db.has_key k) t = false -> ~ In k (map short_key t).
Proof.
  intros H Hin. apply in_map_iff in Hin as (r & Hr & Hin).
  assert (Ht : existsb (Db.has_key k) t = true).
  { apply existsb_exists. exists r. split; [exact Hin|].
    unfold Db.has_key. apply String.eqb_eq, Hr. }
  rewrite H in Ht. discriminate Ht.
Qed.

Lemma url_absent_not_in (u : string) (t : list Row) :
  find (Db.has_url u) t = None -> ~ In u (map long_url t).
Proof.
  intros H Hin. apply in_map_iff in Hin as (r & Hr & Hin).
  pose proof (find_none _ _ H r Hin) as Hn.
  unfold Db.has_url in Hn. rewrite Hr, String.eqb_refl in Hn. discriminate Hn.
Qed.

Lemma NoDup_snoc {A : Type} (l : list A) (x : A) :
  NoDup l -> ~ In x l -> NoDup (l ++ [x]).
Proof.
  induction l as [|y l IH]; intros Hl Hx; cbn [app].
  - constructor; [intros [] | constructor].
  - inversion Hl as [|? ? Hy Hl']; subst. constructor.
    + intros Hin. apply in_app_or in Hin as [Hin | [-> | []]].
      * exact (Hy Hin).
      * apply Hx. left. reflexivity.
    + apply IH; [exact Hl'|]. intros Hin. apply Hx. right. exact Hin.
Qed.

Lemma row_made_key_length (lib : GoLib) (r : Row) :
  row_made lib r -> String.length (short_key r) = 7%nat.
Proof.
  intros [(i & _ & ->) _]. apply generateShortURLKey_length.
Qed.

Lemma table_inv_shorten (lib : GoLib) (ddl : Schema) (longUrl : string)
  (w : World) :
  table_inv lib (table w) ->
  table_inv lib (table (fst (HandleShortURLRequest lib ddl longUrl w))).
Proof.
  intros (Hk & Hu & Hm).
  destruct (shorten_effect lib ddl longUrl w)
    as [-> | (i & Hi & Hv & -> & Hfree & Habs & _)]; [repeat split; assumption|].
  assert (Hnone : find (Db.has_url longUrl) (table w) = None).
  { destruct Habs as [H | (r & Hf & He)]; [exact H|].
    exfalso. apply find_some in Hf as [Hin _].
    rewrite Forall_forall in Hm.
    pose proof (row_made_key_length lib r (Hm r Hin)) as H7.
    rewrite He in H7. discriminate H7. }
  split; [|split].
  - rewrite map_app. apply NoDup_snoc; [exact Hk | apply key_free_not_in, Hfree].
  - rewrite map_app. apply NoDup_snoc; [exact Hu | apply url_absent_not_in, Hnone].
  - apply Forall_app. split; [exact Hm|].
    constructor; [|constructor].
    split; [exists i; split; [exact Hi | reflexivity] | exact Hv].
Qed.

Lemma table_inv_bump (lib : GoLib) (key : string) (t : list Row) :
  table_inv lib t -> table_inv lib (map (Db.bump key) t).
Proof.
  intros (Hk & Hu & Hm).
  split; [rewrite map_short_key_bump; exact Hk|].
  split; [rewrite map_long_url_bump; exact Hu|].
  apply Forall_map. eapply Forall_impl; [|exact Hm].
  intros r Hr. unfold row_made, Db.bump in *.
  destruct (Db.has_key key r); exact Hr.
Qed.

Lemma table_inv_resolve (lib : GoLib) (key : string) (w : World) :
  table_inv lib (table w) ->
  table_inv lib (table (fst (HandleRedirectRequest key w))).
Proof.
  intros H. destruct (resolve_effect key w) as [-> | [-> _]];
    [exact H | apply table_inv_bump, H].
Qed.

(** The invariant of the table holds in every world the program reaches. *)
Lemma reachable_table_inv (lib : GoLib) (ddl : Schema) (w : World) :
  reachable lib ddl w -> table_inv lib (table w).
Proof.
  induction 1 as [fs | w longUrl _ IH | w key _ IH | w path _ IH].
  - repeat split; constructor.
  - apply table_inv_shorten, IH.
  - apply table_inv_resolve, IH.
  - destruct (redirect_table path w) as [-> | [key ->]];
      [exact IH | apply table_inv_resolve, IH].
Qed.

Lemma one_mapping_world_reachable :
  reachable golib create_table_sql_rev one_mapping_world.
Proof. apply reach_shorten, reach_init. Qed.

(** *** Deduplication *)

Lemma find_app_none {A : Type} (p : A -> bool) (l : list A) (x : A) :
  find p l = None -> p x = true -> find p (l ++ [x]) = Some x.
Proof.
  induction l as [|y l IH]; cbn [find app]; intros Hn Hx.
  - rewrite Hx. reflexivity.
  - destruct (p y); [discriminate Hn | apply IH; assumption].
Qed.

Lemma keys_ok_find (t : list Row) (p : Row -> bool) (r : Row) :
  keys_ok t -> find p t = Some r -> String.length (short_key r) = 7%nat.
Proof.
  intros Hk Hf. apply find_some in Hf as [Hin _].
  unfold keys_ok in Hk. rewrite Forall_forall in Hk. apply Hk, Hin.
Qed.

Lemma length_7_nonempty (k : string) :
  String.length k = 7%nat -> negb (String.eqb k "") = true.
Proof. destruct k; [discriminate | reflexivity]. Qed.

(** A shortening request for a long URL that is in the table under a key of
    seven characters, with no failure of the lookup: the key found is
    rendered and nothing is written. *)
Lemma shorten_found (lib : GoLib) (ddl : Schema) (longUrl : string)
  (w : World) (r : Row) :
  ValidateLongURL lib longUrl = None ->
  Db.pending w = None ->
  find (Db.has_url longUrl) (table w) = Some r ->
  String.length (short_key r) = 7%nat ->
  HandleShortURLRequest lib ddl longUrl w
  = (Db.after w (table w) (SelectShortKey longUrl) None,
     generateFullShortURL lib (short_key r)).
Proof.
  intros Hv Hp Hf Hk. unfold HandleShortURLRequest. rewrite Hv.
  unfold CheckDbForLongURL, Db.select_short_key. rewrite Hp, Hf.
  rewrite (length_7_nonempty _ Hk). reflexivity.
Qed.

Lemma NoDup_map_eq {A B : Type} (f : A -> B) (l : list A) (x y : A) :
  NoDup (map f l) -> In x l -> In y l -> f x = f y -> x = y.
Proof.
  induction l as [|a l IH]; cbn [map In]; intros Hn Hx Hy E; [contradiction|].
  inversion Hn as [|b t Hnotin Hn']; subst.
  destruct Hx as [-> | Hx], Hy as [-> | Hy].
  - reflexivity.
  - exfalso. apply Hnotin. rewrite E. apply in_map, Hy.
  - exfalso. apply Hnotin. rewrite <- E. apply in_map, Hx.
  - apply IH; assumption.
Qed.

(** After a shortening request that returned a short URL, the lookup by
    long URL finds a row, and the short URL is the rendering of the key of
    that row. *)
Lemma shorten_ok_row (lib : GoLib) (ddl : Schema) (longUrl : string)
  (w w1 : World) (u : string) :
  reachable lib ddl w ->
  HandleShortURLRequest lib ddl longUrl w = (w1, Ok u) ->
  exists r,
    find (Db.has_url longUrl) (table w1) = Some r
    /\ String.length (short_key r) = 7%nat
    /\ generateFullShortURL lib (short_key r) = Ok u.
Proof.
  intros Hr H1.
  pose proof (reachable_keys_ok lib ddl w Hr) as Hk.
  apply shorten_ok_cases in H1
    as [_ [(r & Hf & _ & Ht & Hu) | (i & Hf & Ht & Hu)]].
  - exists r. rewrite Ht. repeat split; [exact Hf | | exact Hu].
    apply (keys_ok_find _ _ _ Hk Hf).
  - destruct Hf as [Hf | (r & Hf & He)].
    + exists (mkRow (generateShortURLKey longUrl i) longUrl
                (click_count_default ddl)).
      cbn [short_key]. repeat split; [ | | exact Hu].
      * rewrite Ht. apply find_app_none; [exact Hf|].
        unfold Db.has_url. apply String.eqb_refl.
      * apply generateShortURLKey_length.
    + pose proof (keys_ok_find _ _ _ Hk Hf) as H7.
      rewrite He in H7. discriminate H7.
Qed.

(** C1.  In a world the program can reach, after a shortening request for
    a valid long URL that returned a short URL [u], the table holds one
    row for that long URL and no other, and [u] is the rendering of the
    key of that row.  A second request, when its lookup does not fail,
    finds that row by the long URL ([CheckDbForLongURL] returns its key),
    returns the same [u], sends the lookup and nothing else, and leaves
    the table as the first request left it: no second mapping is made. *)
Theorem shorten_twice_same (lib : GoLib) (ddl : Schema) (longUrl : string)
  (w w1 : World) (u : string) :
  reachable lib ddl w ->
  ValidateLongURL lib longUrl = None ->
  HandleShortURLRequest lib ddl longUrl w = (w1, Ok u) ->
  Db.pending w1 = None ->
  exists r,
    In r (table w1)
    /\ long_url r = longUrl
    /\ (forall r', In r' (table w1) -> long_url r' = longUrl -> r' = r)
    /\ generateFullShortURL lib (short_key r) = Ok u
    /\ CheckDbForLongURL longUrl w1
       = (Db.after w1 (table w1) (SelectShortKey longUrl) None,
          Ok (short_key r))
    /\ HandleShortURLRequest lib ddl longUrl w1
       = (Db.after w1 (table w1) (SelectShortKey longUrl) None, Ok u)
    /\ table (fst (HandleShortURLRequest lib ddl longUrl w1)) = table w1.
Proof.
  intros Hr Hv H1 Hp.
  assert (Hr1 : reachable lib ddl w1).
  { replace w1 with (fst (HandleShortURLRequest lib ddl longUrl w))
      by (rewrite H1; reflexivity).
    apply reach_shorten, Hr. }
  destruct (reachable_table_inv lib ddl w1 Hr1) as (_ & Hn & _).
  destruct (shorten_ok_row lib ddl longUrl w w1 u Hr H1) as (r & Hf & H7 & Hu).
  pose proof (find_some _ _ Hf) as [Hin Hurl].
  unfold Db.has_url in Hurl. apply String.eqb_eq in Hurl.
  assert (H2 : HandleShortURLRequest lib ddl longUrl w1
               = (Db.after w1 (table w1) (SelectShortKey longUrl) None, Ok u)).
  { rewrite (shorten_found lib ddl longUrl w1 r Hv Hp Hf H7), Hu.
    reflexivity. }
  exists r. split; [exact Hin|]. split; [exact Hurl|].
  split; [|split; [exact Hu|split; [|split; [exact H2|]]]].
  - intros r' Hin' Hurl'.
    apply (NoDup_map_eq long_url (table w1) r' r Hn Hin' Hin).
    rewrite Hurl, Hurl'. reflexivity.
  - unfold CheckDbForLongURL, Db.select_short_key. rewrite Hp, Hf.
    reflexivity.
  - rewrite H2. reflexivity.
Qed.

Lemma shorten_twice_same_witness :
  exists r,
    In r (table one_mapping_world)
    /\ long_url r = "https://example.com/a"
    /\ (forall r', In r' (table one_mapping_world) ->
                   long_url r' = "https://example.com/a" -> r' = r)
    /\ generateFullShortURL golib (short_key r)
       = Ok "http://shan747.urs/ODAbUmv"
    /\ CheckDbForLongURL "https://example.com/a" one_mapping_world
       = (Db.after one_mapping_world (table one_mapping_world)
            (SelectShortKey "https://example.com/a") None,
          Ok (short_key r))
    /\ HandleShortURLRequest golib create_table_sql_rev
         "https://example.com/a" one_mapping_world
       = (Db.after one_mapping_world (table one_mapping_world)
            (SelectShortKey "https://example.com/a") None,
          Ok "http://shan747.urs/ODAbUmv")
    /\ table (fst (HandleShortURLRequest golib create_table_sql_rev
                     "https://example.com/a" one_mapping_world))
       = table one_mapping_world.
Proof.
  apply (shorten_twice_same golib create_table_sql_rev
           "https://example.com/a" init_world one_mapping_world
           "http://shan747.urs/ODAbUmv").
  - apply reach_init.
  - reflexivity.
  - vm_compute. reflexivity.
  - reflexivity.
Defined.

(** *** Click counts *)

Lemma clicks_app (k : string) (t : list Row) (r : Row) (c : Z) :
  clicks k t = Some c -> clicks k (t ++ [r]) = Some c.
Proof.
  unfold clicks. induction t as [|x t IH]; cbn [find app]; [discriminate|].
  destruct (Db.has_key k x); [auto | exact IH].
Qed.

(** A shortening request leaves every click count as it was. *)
Lemma shorten_keeps_clicks (lib : GoLib) (ddl : Schema) (longUrl : string)
  (w : World) (k : string) (c : Z) :
  clicks k (table w) = Some c ->
  clicks k (table (fst (HandleShortURLRequest lib ddl longUrl w))) = Some c.
Proof.
  intros H. destruct (shorten_table lib ddl longUrl w) as [-> | [i ->]];
    [exact H | apply clicks_app, H].
Qed.

(** A redirect adds one to the click count of its key when it succeeds and
    leaves every other click count as it was. *)
Lemma resolve_bumps_clicks (key : string) (w : World) (k : string) (c : Z) :
  clicks k (table w) = Some c ->
  clicks k (table (fst (HandleRedirectRequest key w)))
  = Some (if String.eqb k key
          then match snd (HandleRedirectRequest key w) with
               | Ok _ => c + 1
               | Err _ => c
               end
          else c).
Proof.
  intros H.
  destruct (HandleRedirectRequest key w) as [w' [l|e]] eqn:E; cbn [fst snd].
  - apply HandleRedirectRequest_ok in E as (_ & _ & r & Hf & _ & ->).
    cbn [Db.after table].
    destruct (String.eqb_spec k key) as [->|Hne].
    + rewrite (clicks_bump_same key (table w) r Hf).
      unfold clicks in H. rewrite Hf in H. injection H as <-. reflexivity.
    + rewrite (clicks_bump_other key k (table w) Hne). exact H.
  - assert (Ht : table w' = table w).
    { destruct (resolve_table key w) as [Ht | [_ Hok]];
        rewrite E in *; cbn [fst snd] in *; [exact Ht | destruct Hok]. }
    rewrite Ht, H. destruct (String.eqb k key); reflexivity.
Qed.

(** The row a shortening request adds carries the default click count of
    the schema: 0 under the revision of [create_table.sql] that says
    [DEFAULT 0]. *)
Lemma shorten_new_row_default (lib : GoLib) (ddl : Schema) (longUrl : string)
  (w : World) (t : list Row) (r : Row) :
  table (fst (HandleShortURLRequest lib ddl longUrl w)) = table w ++ r :: t ->
  t = [] /\ long_url r = longUrl /\ click_count r = click_count_default ddl.
Proof.
  intros H. destruct (shorten_table lib ddl longUrl w) as [E | [i E]];
    rewrite E in H.
  - exfalso. apply (f_equal (@List.length Row)) in H.
    rewrite length_app in H. cbn in H. lia.
  - apply app_inv_head in H. injection H as <- <-. auto.
Qed.

Lemma clicks_new_row (k u : string) (c : Z) (t : list Row) :
  existsb (Db.has_key k) t = false -> clicks k (t ++ [mkRow k u c]) = Some c.
Proof.
  intros H. unfold clicks.
  rewrite (find_app_none (Db.has_key k) t (mkRow k u c)).
  - reflexivity.
  - destruct (find (Db.has_key k) t) as [r|] eqn:E; [|reflexivity].
    exfalso. apply find_some in E as [Hin Hk].
    assert (Hex : existsb (Db.has_key k) t = true)
      by (apply existsb_exists; exists r; auto).
    rewrite H in Hex. discriminate Hex.
  - unfold Db.has_key. apply String.eqb_refl.
Qed.

(** C7.  With the table of [create_table.sql] ([DEFAULT 0]): a shortening
    request creates at most one mapping, the row of a key that had none,
    and that mapping starts with a click count of 0.  Afterwards a click
    count never goes down: a shortening request leaves every count as it
    is, and a redirect request adds exactly one to the count of its key
    when it succeeds and leaves every other count, and the count of its
    key when it fails, as it is. *)
Theorem click_count_lifecycle (lib : GoLib) (w : World) :
  (forall longUrl,
      table (fst (HandleShortURLRequest lib create_table_sql_rev longUrl w))
      = table w
      \/ exists i,
           0 <= i < 5
           /\ table (fst (HandleShortURLRequest lib create_table_sql_rev
                            longUrl w))
              = table w ++ [mkRow (generateShortURLKey longUrl i) longUrl 0]
           /\ clicks (generateShortURLKey longUrl i) (table w) = None
           /\ clicks (generateShortURLKey longUrl i)
                (table (fst (HandleShortURLRequest lib create_table_sql_rev
                               longUrl w)))
              = Some 0)
  /\ (forall longUrl k c,
        clicks k (table w) = Some c ->
        clicks k (table (fst (HandleShortURLRequest lib create_table_sql_rev
                                longUrl w)))
        = Some c)
  /\ (forall key k c,
        clicks k (table w) = Some c ->
        clicks k (table (fst (HandleRedirectRequest key w)))
        = Some (if String.eqb k key
                then match snd (HandleRedirectRequest key w) with
                     | Ok _ => c + 1
                     | Err _ => c
                     end
                else c)).
Proof.
  split; [|split].
  - intros longUrl.
    destruct (shorten_effect lib create_table_sql_rev longUrl w)
      as [Ht | (i & Hi & _ & Ht & Hfree & _)]; [left; exact Ht|].
    right. exists i. cbn [click_count_default create_table_sql_rev] in Ht.
    split; [exact Hi|]. split; [exact Ht|]. split.
    + unfold clicks.
      destruct (find (Db.has_key (generateShortURLKey longUrl i)) (table w))
        as [r|] eqn:E; [|reflexivity].
      exfalso. apply find_some in E as [Hin Hk].
      assert (Hex : existsb (Db.has_key (generateShortURLKey longUrl i))
                            (table w) = true)
        by (apply existsb_exists; exists r; auto).
      rewrite Hfree in Hex. discriminate Hex.
    + rewrite Ht. apply clicks_new_row, Hfree.
  - intros longUrl k c. apply shorten_keeps_clicks.
  - intros key k c. apply resolve_bumps_clicks.
Qed.

(** ** The scenarios of the design document *)

Example shorten_localhost_rejected :
  HandleShortURLRequest golib create_table_sql_rev "http://localhost/admin" init_world
  = (init_world,
     Err (Wrapf "validation failed: "
            (Errorf "internal or private URLs are not allowed"))).
Proof. vm_compute. reflexivity. Qed.

Example shorten_ftp_rejected :
  HandleShortURLRequest golib create_table_sql_rev "ftp://example.com" init_world
  = (init_world,
     Err (Wrapf "validation failed: "
            (Errorf "URL must use http or https scheme"))).
Proof. vm_compute. reflexivity. Qed.

Example shorten_example_twice :
  let '(w1, r1) :=
    HandleShortURLRequest golib create_table_sql_rev
      "https://example.com/a" init_world in
  let '(w2, r2) :=
    HandleShortURLRequest golib create_table_sql_rev "https://example.com/a" w1 in
  r1 = Ok "http://shan747.urs/ODAbUmv" /\ r2 = r1 /\ table w2 = table w1.
Proof. vm_compute. repeat split; reflexivity. Qed.

Example resolve_unassigned_not_found :
  HandleRedirectRequest "abc123X" init_world
  = (mkWorld [] []
       [mkEvent (UpdateClickCount "abc123X") (Some ErrNoRows)],
     Err (Errorf "short URL not found"))
  /\ snd (handleRedirect "/abc123X" init_world)
     = HttpError "short URL not found" 404.
Proof. vm_compute. split; reflexivity. Qed.

(** Five collisions in a row: the keys of the salts 0 to 4 are all taken,
    and the request fails naming the five attempts. *)
Example shorten_five_collisions :
  let url := "https://example.com/a" in
  let taken :=
    map (fun i => mkRow (generateShortURLKey url i) "https://other.example/" 0)
        [0; 1; 2; 3; 4] in
  snd (HandleShortURLRequest golib create_table_sql_rev url (mkWorld taken [] []))
  = Err (Wrapf "failed to save url after 5 attempts: "
           (Wrapf "database insert failed: " Db.unique_violation)).
Proof. vm_compute. reflexivity. Qed.

(** * Further properties *)

(** ** Invariants of the table *)

(** X1.  In every world the program reaches no two rows have the same
    short key. *)
Theorem reachable_short_keys_unique (lib : GoLib) (ddl : Schema) (w : World) :
  reachable lib ddl w -> NoDup (map short_key (table w)).
Proof. intros H. apply (reachable_table_inv lib ddl w H). Qed.

Lemma reachable_short_keys_unique_witness :
  NoDup (map short_key (table one_mapping_world)).
Proof.
  apply (reachable_short_keys_unique golib create_table_sql_rev).
  exact one_mapping_world_reachable.
Defined.

(** X2.  In every world the program reaches no two rows have the same long
    URL: requests served one after the other never give a long URL a
    second mapping. *)
Theorem reachable_long_urls_unique (lib : GoLib) (ddl : Schema) (w : World) :
  reachable lib ddl w -> NoDup (map long_url (table w)).
Proof. intros H. apply (reachable_table_inv lib ddl w H). Qed.

Lemma reachable_long_urls_unique_witness :
  NoDup (map long_url (table one_mapping_world)).
Proof.
  apply (reachable_long_urls_unique golib create_table_sql_rev).
  exact one_mapping_world_reachable.
Defined.

(** X3.  Every row of a reachable table was made by the retry loop from a
    validated long URL: its key is the generated key of its long URL for a
    salt from 0 to 4, so it has seven characters of [A-Za-z0-9_-], and the
    validator accepts its long URL. *)
Theorem reachable_rows_made (lib : GoLib) (ddl : Schema) (w : World) (r : Row) :
  reachable lib ddl w ->
  In r (table w) ->
  (exists i, 0 <= i < 5 /\ short_key r = generateShortURLKey (long_url r) i)
  /\ String.length (short_key r) = 7%nat
  /\ GoString.sall key_char (short_key r) = true
  /\ ValidateLongURL lib (long_url r) = None.
Proof.
  intros H Hin.
  destruct (reachable_table_inv lib ddl w H) as (_ & _ & Hm).
  rewrite Forall_forall in Hm. destruct (Hm r Hin) as [(i & Hi & Hk) Hv].
  split; [exists i; split; [exact Hi | exact Hk]|].
  rewrite Hk.
  split; [apply generateShortURLKey_length|].
  split; [apply generateShortURLKey_chars | exact Hv].
Qed.

Lemma reachable_rows_made_witness :
  (exists i, 0 <= i < 5
             /\ "ODAbUmv" = generateShortURLKey "https://example.com/a" i)
  /\ String.length "ODAbUmv" = 7%nat
  /\ GoString.sall key_char "ODAbUmv" = true
  /\ ValidateLongURL golib "https://example.com/a" = None.
Proof.
  apply (reachable_rows_made golib create_table_sql_rev one_mapping_world
           (mkRow "ODAbUmv" "https://example.com/a" 0)).
  - exact one_mapping_world_reachable.
  - vm_compute. left. reflexivity.
Defined.

(** X4.  Requests never delete or re-point a mapping.  A shortening
    request keeps every row as it is and adds at most one; a redirect,
    through [HandleRedirectRequest] or through the handler, keeps the keys
    and long URLs of all rows, in order. *)
Theorem requests_keep_mappings (lib : GoLib) (ddl : Schema) (w : World) :
  (forall longUrl, exists added,
      table (fst (HandleShortURLRequest lib ddl longUrl w)) = table w ++ added
      /\ (List.length added <= 1)%nat)
  /\ (forall key,
        map mapping (table (fst (HandleRedirectRequest key w)))
        = map mapping (table w))
  /\ (forall path,
        map mapping (table (fst (handleRedirect path w)))
        = map mapping (table w)).
Proof.
  assert (Hres : forall key,
    map mapping (table (fst (HandleRedirectRequest key w)))
    = map mapping (table w)).
  { intros key. destruct (resolve_effect key w) as [-> | [-> _]];
      [reflexivity | apply map_mapping_bump]. }
  split; [|split].
  - intros longUrl.
    destruct (shorten_effect lib ddl longUrl w) as [-> | (i & _ & _ & -> & _)].
    + exists []. rewrite app_nil_r. split; [reflexivity | cbn; lia].
    + eexists. split; [reflexivity | cbn; lia].
  - exact Hres.
  - intros path. destruct (redirect_table path w) as [-> | [key ->]];
      [reflexivity | apply Hres].
Qed.

(** X5.  Click counts stay within bounds: when the default of the schema
    fits an [INTEGER], every count of a reachable table lies between that
    default and the largest [INTEGER]. *)
Theorem reachable_click_bounds (lib : GoLib) (ddl : Schema) (w : World) :
  click_count_default ddl <= Db.INT_MAX ->
  reachable lib ddl w ->
  Forall (fun r => click_count_default ddl <= click_count r <= Db.INT_MAX)
         (table w).
Proof.
  intros Hd.
  assert (Hres : forall key w0,
    Forall (fun r => click_count_default ddl <= click_count r <= Db.INT_MAX)
           (table w0) ->
    Forall (fun r => click_count_default ddl <= click_count r <= Db.INT_MAX)
           (table (fst (HandleRedirectRequest key w0)))).
  { intros key w0 H0.
    destruct (resolve_effect key w0) as [-> | [-> Hmax]]; [exact H0|].
    apply Forall_map. rewrite Forall_forall in *. intros r Hin.
    specialize (H0 r Hin). unfold Db.bump.
    destruct (Db.has_key key r) eqn:Hk; cbn [click_count]; [|exact H0].
    assert (Hne : (click_count r =? Db.INT_MAX) = false).
    { destruct (click_count r =? Db.INT_MAX) eqn:E; [|reflexivity].
      assert (Hex : existsb (fun r => Db.has_key key r
                                      && (click_count r =? Db.INT_MAX))
                            (table w0) = true).
      { apply existsb_exists. exists r. rewrite Hk, E. auto. }
      rewrite Hmax in Hex. discriminate Hex. }
    apply Z.eqb_neq in Hne. lia. }
  induction 1 as [fs | w longUrl _ IH | w key _ IH | w path _ IH].
  - constructor.
  - destruct (shorten_effect lib ddl longUrl w) as [-> | (i & _ & _ & -> & _)];
      [exact IH|].
    apply Forall_app. split; [exact IH|].
    constructor; [cbn [click_count]; lia | constructor].
  - apply Hres, IH.
  - destruct (redirect_table path w) as [-> | [key ->]];
      [exact IH | apply Hres, IH].
Qed.

Lemma reachable_click_bounds_witness :
  Forall (fun r => 0 <= click_count r <= Db.INT_MAX)
         (table (fst (HandleRedirectRequest "ODAbUmv" one_mapping_world))).
Proof.
  apply (reachable_click_bounds golib create_table_sql_rev).
  - vm_compute. discriminate.
  - apply reach_resolve. exact one_mapping_world_reachable.
Defined.

(** ** Statements sent *)

Lemma insert_events_length (longUrl : string) (outs : list (option error)) :
  forall salt, List.length (insert_events longUrl salt outs) = List.length outs.
Proof.
  induction outs as [|o outs IH]; intros salt; cbn; [reflexivity|].
  rewrite IH. reflexivity.
Qed.

Lemma resolve_log (key : string) (w : World) :
  exists evs,
    log (fst (HandleRedirectRequest key w)) = log w ++ evs
    /\ (List.length evs <= 1)%nat.
Proof.
  unfold HandleRedirectRequest.
  destruct (negb (GoString.len key =? 7)).
  { exists []. rewrite app_nil_r. split; [reflexivity | cbn; lia]. }
  unfold Db.update_click_count.
  destruct (Db.pending w) as [f|];
    [destruct f
    |destruct (existsb _ (table w));
      [|destruct (find (Db.has_key key) (table w))]];
    eexists; (split; [reflexivity | cbn; lia]).
Qed.

(** X6.  The log of statements only grows, and by little: a shortening
    request sends at most six statements (the lookup and five inserts), a
    redirect at most one, through [HandleRedirectRequest] or through the
    handler. *)
Theorem statements_per_request (lib : GoLib) (ddl : Schema) (w : World) :
  (forall longUrl, exists evs,
      log (fst (HandleShortURLRequest lib ddl longUrl w)) = log w ++ evs
      /\ (List.length evs <= 6)%nat)
  /\ (forall key, exists evs,
        log (fst (HandleRedirectRequest key w)) = log w ++ evs
        /\ (List.length evs <= 1)%nat)
  /\ (forall path, exists evs,
        log (fst (handleRedirect path w)) = log w ++ evs
        /\ (List.length evs <= 1)%nat).
Proof.
  split; [|split].
  - intros longUrl. unfold HandleShortURLRequest.
    destruct (ValidateLongURL lib longUrl).
    { exists []. rewrite app_nil_r. split; [reflexivity | cbn; lia]. }
    destruct (CheckDbForLongURL longUrl w) as [w1 r] eqn:Hc.
    apply CheckDbForLongURL_log in Hc as (_ & _ & e & Hl).
    destruct r as [k|err];
      [|eexists; split; [exact Hl | cbn; lia]].
    destruct (negb (String.eqb k ""));
      [eexists; split; [exact Hl | cbn; lia]|].
    change (Z.to_nat MaxRetries) with 5%nat.
    destruct (retry_loop_spec ddl longUrl 4 0 k None w1)
      as (cs & o & Hlen & _ & Hlog & _).
    destruct (retry_loop ddl 5 0 k None longUrl w1) as [w2 exit].
    cbn [fst] in Hlog.
    exists ([mkEvent (SelectShortKey longUrl) e]
            ++ insert_events longUrl 0 (map Some cs ++ [o])).
    split.
    + destruct exit as [e' | k' [e'|]]; cbn [fst];
        rewrite Hlog, Hl, <- app_assoc; reflexivity.
    + rewrite length_app, insert_events_length, length_app, length_map.
      cbn [List.length]. lia.
  - intros key. apply resolve_log.
  - intros path. destruct (redirect_table path w) as [-> | [key ->]].
    + exists []. rewrite app_nil_r. split; [reflexivity | cbn; lia].
    + apply resolve_log.
Qed.

(** ** Failures of a shortening request *)

(** X7.  A shortening request that returns an error has left the table as
    it was, with one exception: when the row was inserted and rendering
    the short URL then failed, the row stays and the error is the one of
    [generateFullShortURL].  In particular a lookup that fails ends the
    request with "database lookup failed", before any insert. *)
Theorem shorten_error_effect (lib : GoLib) (ddl : Schema) (longUrl : string)
  (w w' : World) (e : error) :
  HandleShortURLRequest lib ddl longUrl w = (w', Err e) ->
  (table w' = table w
   \/ exists i e',
        e = Wrapf "Failed to construct full short URL: " e'
        /\ table w' = table w ++ [mkRow (generateShortURLKey longUrl i) longUrl
                                        (click_count_default ddl)])
  /\ (forall f,
        Db.pending w = Some f ->
        ValidateLongURL lib longUrl = None ->
        w' = Db.after w (table w) (SelectShortKey longUrl) (Some (fault_error f))
        /\ e = Wrapf "database lookup failed: "
                 (Wrapf "error querying database for long URL: " (fault_error f))).
Proof.
  intros H. split.
  - destruct (shorten_effect lib ddl longUrl w)
      as [Ht | (i & _ & _ & Ht & _ & _ & Hr)];
      rewrite H in *; cbn [fst snd] in *; [left; exact Ht|].
    right. exists i. unfold generateFullShortURL in Hr.
    destruct (url_JoinPath lib "http://shan747.urs/"
                (generateShortURLKey longUrl i)) as [u|e']; [discriminate Hr|].
    injection Hr as ->. exists e'. split; [reflexivity | exact Ht].
  - intros f Hp Hv. revert H. unfold HandleShortURLRequest. rewrite Hv.
    unfold CheckDbForLongURL, Db.select_short_key. rewrite Hp.
    destruct f; cbn; intros [= <- <-]; split; reflexivity.
Qed.

(** A world whose first statement will fail. *)
Lemma shorten_error_effect_witness :
  let w := mkWorld [] [Some (DriverFault "connection refused")] [] in
  (table (Db.after w [] (SelectShortKey "https://example.com/a")
            (Some (DriverError "connection refused"))) = table w
   \/ exists i e',
        Wrapf "database lookup failed: "
          (Wrapf "error querying database for long URL: "
             (DriverError "connection refused"))
        = Wrapf "Failed to construct full short URL: " e'
        /\ table (Db.after w [] (SelectShortKey "https://example.com/a")
                    (Some (DriverError "connection refused")))
           = table w ++ [mkRow (generateShortURLKey "https://example.com/a" i)
                               "https://example.com/a"
                               (click_count_default create_table_sql_rev)]).
Proof.
  intros w.
  apply (shorten_error_effect golib create_table_sql_rev
           "https://example.com/a" w).
  reflexivity.
Defined.

(** ** From a short URL back to the long URL *)

Lemma find_unique_key (t : list Row) (r : Row) :
  NoDup (map short_key t) -> In r t ->
  find (Db.has_key (short_key r)) t = Some r.
Proof.
  induction t as [|x t IH]; intros Hn Hin; [destruct Hin|].
  cbn [map] in Hn. inversion Hn as [|? ? Hx Hn']; subst.
  cbn [find]. unfold Db.has_key at 1.
  destruct (String.eqb_spec (short_key x) (short_key r)) as [E|E].
  - destruct Hin as [-> | Hin]; [reflexivity|].
    exfalso. apply Hx. rewrite E. apply in_map, Hin.
  - destruct Hin as [-> | Hin]; [congruence | apply IH; assumption].
Qed.

Lemma unique_key_rows (t : list Row) (r r' : Row) :
  NoDup (map short_key t) -> In r t -> In r' t ->
  short_key r' = short_key r -> r' = r.
Proof.
  intros Hn Hr Hr' E.
  pose proof (find_unique_key t r Hn Hr) as H1.
  pose proof (find_unique_key t r' Hn Hr') as H2.
  rewrite E in H2. congruence.
Qed.

(** A key of key characters is not under "api/". *)
Lemma key_chars_not_api (key : string) :
  GoString.sall key_char key = true -> GoString.HasPrefix key "api/" = false.
Proof.
  unfold GoString.HasPrefix.
  destruct key as [|c1 [|c2 [|c3 [|c4 k]]]]; cbn [String.prefix];
    try (intros _; repeat (destruct (ascii_dec _ _)); reflexivity).
  intros H.
  destruct (ascii_dec "a" c1); [|reflexivity].
  destruct (ascii_dec "p" c2); [|reflexivity].
  destruct (ascii_dec "i" c3); [|reflexivity].
  destruct (ascii_dec "/" c4) as [<-|]; [|reflexivity].
  cbn [GoString.sall] in H.
  apply andb_prop in H as [_ H]. apply andb_prop in H as [_ H].
  apply andb_prop in H as [_ H]. apply andb_prop in H as [H _].
  vm_compute in H. discriminate H.
Qed.

(** The handler on a well-formed key that has a row whose count can still
    grow, when the statement does not fail: a redirect to the long URL of
    the row, and the count goes up. *)
Lemma redirect_found (t : list Row) (w : World) (r : Row) :
  table w = t ->
  NoDup (map short_key t) ->
  In r t ->
  String.length (short_key r) = 7%nat ->
  GoString.sall key_char (short_key r) = true ->
  Db.pending w = None ->
  click_count r < Db.INT_MAX ->
  handleRedirect ("/" ++ short_key r) w
  = (Db.after w (map (Db.bump (short_key r)) t)
       (UpdateClickCount (short_key r)) None,
     HttpRedirect (long_url r) 302).
Proof.
  intros Ht Hn Hin H7 Hc Hp Hlt. subst t.
  unfold handleRedirect.
  change (GoString.HasPrefix ("/" ++ short_key r) "/api/")
    with (GoString.HasPrefix (short_key r) "api/").
  rewrite (key_chars_not_api _ Hc). cbn [append].
  pose proof (length_7_nonempty _ H7) as Hne.
  apply negb_true_iff in Hne. rewrite Hne, Hc. cbn [negb].
  unfold HandleRedirectRequest. rewrite len_not_7, H7. cbn [Nat.eqb negb].
  unfold Db.update_click_count. rewrite Hp.
  replace (existsb (fun r0 => Db.has_key (short_key r) r0
                              && (click_count r0 =? Db.INT_MAX)) (table w))
    with false.
  - rewrite (find_unique_key (table w) r Hn Hin). reflexivity.
  - symmetry. apply not_true_is_false. intros Hex.
    apply existsb_exists in Hex as (r' & Hin' & Hr').
    apply andb_prop in Hr' as [Hk Hm].
    unfold Db.has_key in Hk. apply String.eqb_eq in Hk.
    rewrite (unique_key_rows (table w) r r' Hn Hin Hin' Hk) in Hm.
    apply Z.eqb_eq in Hm. lia.
Qed.

(** X8.  The short URL a shortening request returns leads back to the long
    URL.  In a reachable world, the short URL returned for [longUrl] is
    the rendering of a key of the table whose row holds [longUrl]; a
    redirect request for that key, when its statement does not fail and
    the count can still grow, answers 302 with [longUrl] and bumps the
    count. *)
Theorem shorten_then_redirect (lib : GoLib) (ddl : Schema) (longUrl : string)
  (w w1 : World) (u : string) :
  reachable lib ddl w ->
  HandleShortURLRequest lib ddl longUrl w = (w1, Ok u) ->
  exists key c,
    generateFullShortURL lib key = Ok u
    /\ find (Db.has_key key) (table w1) = Some (mkRow key longUrl c)
    /\ (Db.pending w1 = None ->
        c < Db.INT_MAX ->
        handleRedirect ("/" ++ key) w1
        = (Db.after w1 (map (Db.bump key) (table w1)) (UpdateClickCount key) None,
           HttpRedirect longUrl 302)).
Proof.
  intros Hr H.
  assert (Hr1 : reachable lib ddl w1).
  { replace w1 with (fst (HandleShortURLRequest lib ddl longUrl w))
      by (rewrite H; reflexivity).
    apply reach_shorten, Hr. }
  destruct (reachable_table_inv lib ddl w1 Hr1) as (Hn & _ & Hm).
  assert (Hrow : exists r, In r (table w1) /\ long_url r = longUrl
                           /\ generateFullShortURL lib (short_key r) = Ok u).
  { apply shorten_ok_cases in H
      as [_ [(r & Hf & _ & Ht & Hu) | (i & _ & Ht & Hu)]].
    - exists r. apply find_some in Hf as [Hin Hurl].
      unfold Db.has_url in Hurl. apply String.eqb_eq in Hurl.
      rewrite Ht. auto.
    - eexists. rewrite Ht. split; [apply in_or_app; right; left; reflexivity|].
      cbn [long_url short_key]. auto. }
  destruct Hrow as (r & Hin & Hurl & Hu).
  rewrite Forall_forall in Hm.
  pose proof (row_made_key_length lib r (Hm r Hin)) as H7.
  assert (Hc : GoString.sall key_char (short_key r) = true).
  { destruct (Hm r Hin) as [(i & _ & ->) _]. apply generateShortURLKey_chars. }
  exists (short_key r), (click_count r).
  split; [exact Hu|]. split.
  - rewrite (find_unique_key (table w1) r Hn Hin). rewrite <- Hurl.
    destruct r; reflexivity.
  - intros Hp Hlt. rewrite <- Hurl.
    apply (redirect_found (table w1) w1 r); auto.
Qed.

Lemma shorten_then_redirect_witness :
  exists key c,
    generateFullShortURL golib key = Ok "http://shan747.urs/ODAbUmv"
    /\ find (Db.has_key key) (table one_mapping_world)
       = Some (mkRow key "https://example.com/a" c)
    /\ (Db.pending one_mapping_world = None ->
        c < Db.INT_MAX ->
        handleRedirect ("/" ++ key) one_mapping_world
        = (Db.after one_mapping_world
             (map (Db.bump key) (table one_mapping_world))
             (UpdateClickCount key) None,
           HttpRedirect "https://example.com/a" 302)).
Proof.
  apply (shorten_then_redirect golib create_table_sql_rev
           "https://example.com/a" init_world).
  - apply reach_init.
  - vm_compute. reflexivity.
Defined.

(** X9.  The handler only redirects to long URLs that passed the
    validator: in a reachable world a redirect answer has status 302 and
    its target is the long URL of the row of the key in the path, a URL
    [ValidateLongURL] accepts. *)
Theorem redirect_target_valid (lib : GoLib) (ddl : Schema) (path : string)
  (w w' : World) (target : string) (code : Z) :
  reachable lib ddl w ->
  handleRedirect path w = (w', HttpRedirect target code) ->
  code = 302
  /\ ValidateLongURL lib target = None
  /\ exists c r,
       path = String c (short_key r)
       /\ find (Db.has_key (short_key r)) (table w) = Some r
       /\ long_url r = target.
Proof.
  intros Hr. unfold handleRedirect.
  destruct (GoString.HasPrefix path "/api/"); [discriminate|].
  destruct path as [|c key]; [discriminate|].
  destruct (String.eqb key ""); [discriminate|].
  destruct (negb (GoString.sall key_char key)); [discriminate|].
  destruct (HandleRedirectRequest key w) as [w1 [l|e]] eqn:E.
  - intros [= <- <- <-].
    apply HandleRedirectRequest_ok in E as (_ & _ & r & Hf & -> & _).
    pose proof (find_some _ _ Hf) as [Hin Hk].
    unfold Db.has_key in Hk. apply String.eqb_eq in Hk. subst key.
    destruct (reachable_table_inv lib ddl w Hr) as (_ & _ & Hm).
    rewrite Forall_forall in Hm. destruct (Hm r Hin) as [_ Hv].
    split; [reflexivity|]. split; [exact Hv|].
    exists c, r. auto.
  - destruct (GoString.Contains (Error_text e) "invalid short key length");
      [discriminate|].
    destruct (GoString.Contains (Error_text e) "not found"); discriminate.
Qed.

Lemma redirect_target_valid_witness :
  302 = 302
  /\ ValidateLongURL golib "https://example.com/a" = None
  /\ exists c r,
       "/ODAbUmv" = String c (short_key r)
       /\ find (Db.has_key (short_key r)) (table one_mapping_world) = Some r
       /\ long_url r = "https://example.com/a".
Proof.
  apply (redirect_target_valid golib create_table_sql_rev "/ODAbUmv"
           one_mapping_world
           (fst (handleRedirect "/ODAbUmv" one_mapping_world))).
  - exact one_mapping_world_reachable.
  - vm_compute. reflexivity.
Defined.

(** ** What the key generator hashes *)

Lemma string_of_uint_no_colon (d : Decimal.uint) :
  GoString.sall no_colon (NilEmpty.string_of_uint d) = true.
Proof. induction d; simpl; try rewrite IHd; reflexivity. Qed.

Lemma itoa_no_colon (n : Z) : GoString.sall no_colon (GoString.itoa n) = true.
Proof.
  unfold GoString.itoa, Z.to_int, NilZero.string_of_int, NilZero.string_of_uint.
  destruct n as [|p|p]; [reflexivity| |];
    destruct (Pos.to_uint p);
    solve [reflexivity | apply string_of_uint_no_colon
          | cbn [GoString.sall]; rewrite string_of_uint_no_colon; reflexivity].
Qed.

Lemma itoa_injective (n m : Z) : GoString.itoa n = GoString.itoa m -> n = m.
Proof.
  unfold GoString.itoa. intros H.
  assert (Hnz : forall z, Z.to_int z <> Decimal.Pos Decimal.Nil
                          /\ Z.to_int z <> Decimal.Neg Decimal.Nil).
  { intros [|p|p]; cbn; split; try discriminate;
      intros [= E]; exact (DecimalPos.Unsigned.to_uint_nonnil p E). }
  apply (f_equal NilZero.int_of_string) in H.
  rewrite !NilZero.isi in H by apply Hnz.
  injection H as H. apply DecimalZ.to_int_inj, H.
Qed.

(** Two texts that end in a colon and a colon-free tail are equal only
    when their parts are. *)
Lemma split_at_last_colon (u1 : string) :
  forall u2 d1 d2 : string,
    GoString.sall no_colon d1 = true ->
    GoString.sall no_colon d2 = true ->
    (u1 ++ ":" ++ d1 = u2 ++ ":" ++ d2)%string ->
    u1 = u2 /\ d1 = d2.
Proof.
  assert (Hcolon : forall u d : string,
    GoString.sall no_colon (u ++ ":" ++ d)%string = false).
  { intros u d. rewrite sall_app. cbn.
    destruct (GoString.sall no_colon u); reflexivity. }
  induction u1 as [|c u1 IH]; intros [|c2 u2] d1 d2 H1 H2 E; cbn in E.
  - injection E as ->. auto.
  - injection E as _ E. rewrite E in H1.
    change (u2 ++ String ":" d2)%string with (u2 ++ ":" ++ d2)%string in H1.
    rewrite Hcolon in H1. discriminate H1.
  - injection E as _ E. rewrite <- E in H2.
    change (u1 ++ String ":" d1)%string with (u1 ++ ":" ++ d1)%string in H2.
    rewrite Hcolon in H2. discriminate H2.
  - injection E as -> E. destruct (IH u2 d1 d2 H1 H2 E) as [-> ->]. auto.
Qed.

Lemma byte_of_injective (a b : ascii) :
  GoString.byte_of a = GoString.byte_of b -> a = b.
Proof.
  unfold GoString.byte_of. intros H. apply N2Z.inj in H.
  rewrite <- (ascii_N_embedding a), <- (ascii_N_embedding b), H. reflexivity.
Qed.

Lemma bytes_injective (s : string) :
  forall t, GoString.bytes s = GoString.bytes t -> s = t.
Proof.
  unfold GoString.bytes.
  induction s as [|a s IH]; intros [|b t] H; cbn in H; try discriminate.
  - reflexivity.
  - injection H as Hab H. f_equal; [apply byte_of_injective, Hab | apply IH, H].
Qed.

(** X10.  The retry loop never hashes the same bytes twice: the message
    that [generateShortURLKey] hashes, the long URL, a colon and the salt
    in decimal, determines both the long URL and the salt, so two
    different pairs give the same key only when their digests agree on the
    first seven characters. *)
Theorem salted_message_injective (url1 url2 : string) (salt1 salt2 : Z) :
  salted_message url1 salt1 = salted_message url2 salt2 ->
  url1 = url2 /\ salt1 = salt2.
Proof.
  unfold salted_message. intros H. apply bytes_injective in H.
  apply split_at_last_colon in H as [-> H]; try apply itoa_no_colon.
  split; [reflexivity | apply itoa_injective, H].
Qed.

Lemma salted_message_injective_witness :
  "https://example.com/a" = "https://example.com/a" /\ 3 = 3.
Proof.
  apply (salted_message_injective
           "https://example.com/a" "https://example.com/a" 3 3).
  reflexivity.
Defined.

(** ** Saving and looking up *)

(** X11.  [saveURLToDatabase] never overwrites.  When the key is already
    in the table the row of that key stays as it is, nothing is added and
    an error is returned; when the statement reaches the table and the key
    fits the column, that error is a uniqueness violation, which
    [isCollisionError] recognises. *)
Theorem save_taken_key (ddl : Schema) (k u : string) (w : World) :
  existsb (Db.has_key k) (table w) = true ->
  table (fst (saveURLToDatabase ddl k u w)) = table w
  /\ snd (saveURLToDatabase ddl k u w) <> None
  /\ (Db.pending w = None ->
      (String.length k <= 7)%nat ->
      snd (saveURLToDatabase ddl k u w)
      = Some (Wrapf "database insert failed: " Db.unique_violation)
      /\ isCollisionError (snd (saveURLToDatabase ddl k u w)) = true).
Proof.
  intros Hex.
  destruct (saveURLToDatabase_cases ddl k u w) as [(_ & _ & Hfree) | [e He]].
  { rewrite Hfree in Hex. discriminate Hex. }
  split; [rewrite He; reflexivity|]. split; [rewrite He; discriminate|].
  intros Hp H7. clear He.
  unfold saveURLToDatabase, Db.insert_url. rewrite Hp, Hex.
  replace (7 <? GoString.len k) with false
    by (symmetry; apply Z.ltb_ge; unfold GoString.len; lia).
  split; reflexivity.
Qed.

Lemma save_taken_key_witness :
  table (fst (saveURLToDatabase create_table_sql_rev "ODAbUmv"
                "https://example.com/a" collided_world))
  = table collided_world.
Proof.
  apply (save_taken_key create_table_sql_rev "ODAbUmv"
           "https://example.com/a" collided_world).
  reflexivity.
Defined.

(** X12.  What was saved is found.  After [saveURLToDatabase] has saved a
    key for a long URL that had no row, [CheckDbForLongURL] for that long
    URL returns the key, provided its statement does not fail, and changes
    nothing in the table. *)
Theorem save_then_lookup (ddl : Schema) (k u : string) (w : World) :
  snd (saveURLToDatabase ddl k u w) = None ->
  find (Db.has_url u) (table w) = None ->
  Db.pending (fst (saveURLToDatabase ddl k u w)) = None ->
  snd (CheckDbForLongURL u (fst (saveURLToDatabase ddl k u w))) = Ok k
  /\ table (fst (CheckDbForLongURL u (fst (saveURLToDatabase ddl k u w))))
     = table w ++ [mkRow k u (click_count_default ddl)].
Proof.
  intros Hs Hf.
  destruct (saveURLToDatabase_cases ddl k u w) as [(He & _ & _) | [e He]];
    [|rewrite He in Hs; discriminate Hs].
  rewrite He. cbn [fst snd].
  intros Hp. unfold CheckDbForLongURL, Db.select_short_key. rewrite Hp.
  cbn [Db.after table].
  rewrite (find_app_none (Db.has_url u) (table w)
             (mkRow k u (click_count_default ddl)) Hf)
    by (unfold Db.has_url; apply String.eqb_refl).
  split; reflexivity.
Qed.

Lemma save_then_lookup_witness :
  snd (CheckDbForLongURL "https://example.com/a"
         (fst (saveURLToDatabase create_table_sql_rev "ODAbUmv"
                 "https://example.com/a" init_world)))
  = Ok "ODAbUmv"
  /\ table (fst (CheckDbForLongURL "https://example.com/a"
                   (fst (saveURLToDatabase create_table_sql_rev "ODAbUmv"
                           "https://example.com/a" init_world))))
     = [] ++ [mkRow "ODAbUmv" "https://example.com/a" 0].
Proof.
  apply (save_then_lookup create_table_sql_rev "ODAbUmv"
           "https://example.com/a" init_world); reflexivity.
Defined.

(** ** Generated keys and the handler *)

(** X13.  A generated key always gets through the checks of the redirect
    handler: for the path of any key [generateShortURLKey] returns, the
    handler sends exactly the [UPDATE] statement of that key, whatever the
    world. *)
Theorem generated_key_reaches_store (longUrl : string) (salt : Z) (w : World) :
  let key := generateShortURLKey longUrl salt in
  fst (handleRedirect ("/" ++ key) w) = fst (HandleRedirectRequest key w)
  /\ exists e,
       log (fst (handleRedirect ("/" ++ key) w))
       = log w ++ [mkEvent (UpdateClickCount key) e].
Proof.
  intros key.
  pose proof (generateShortURLKey_length longUrl salt) as H7.
  pose proof (generateShortURLKey_chars longUrl salt) as Hc.
  fold key in H7, Hc.
  assert (Hfst : fst (handleRedirect ("/" ++ key) w)
                 = fst (HandleRedirectRequest key w)).
  { unfold handleRedirect.
    change (GoString.HasPrefix ("/" ++ key) "/api/")
      with (GoString.HasPrefix key "api/").
    rewrite (key_chars_not_api _ Hc). cbn [append].
    pose proof (length_7_nonempty _ H7) as Hne.
    apply negb_true_iff in Hne. rewrite Hne, Hc. cbn [negb].
    destruct (HandleRedirectRequest key w) as [w' [l|e]]; [reflexivity|].
    destruct (GoString.Contains (Error_text e) "invalid short key length");
      [reflexivity|].
    destruct (GoString.Contains (Error_text e) "not found"); reflexivity. }
  split; [exact Hfst|]. rewrite Hfst.
  unfold HandleRedirectRequest. rewrite len_not_7, H7. cbn [Nat.eqb negb].
  unfold Db.update_click_count.
  destruct (Db.pending w) as [f|];
    [destruct f
    |destruct (existsb _ (table w));
      [|destruct (find (Db.has_key key) (table w))]];
    eexists; reflexivity.
Qed.

(** ** The shorten handler *)

(** X14.  What a 201 of [handleShorten] means.  In a world the program
    can reach, when the reply is 201 the request was a POST whose body
    decoded to a non-empty long URL that the validator accepts, the reply
    carries no error text, and the table the handler leaves holds a row
    for that long URL, the only row with that long URL and the only one
    with its key; the key has seven characters of [A-Za-z0-9_-], the short
    URL of the reply is the rendering of that key, and a redirect request
    for the key, when its statement does not fail and the count is below
    2147483647, is answered 302 with the long URL of the request. *)
Theorem handleShorten_created (decode : string -> result error ShortenRequest)
  (lib : GoLib) (ddl : Schema) (r : Request) (w : World)
  (resp : ShortenResponse) :
  reachable lib ddl w ->
  snd (handleShorten decode lib ddl r w) = Json 201 resp ->
  exists req row,
    Method r = "POST"
    /\ decode (Body r) = Ok req
    /\ LongURL req <> ""
    /\ ValidateLongURL lib (LongURL req) = None
    /\ Error resp = ""
    /\ generateFullShortURL lib (short_key row) = Ok (ShortURL resp)
    /\ In row (table (fst (handleShorten decode lib ddl r w)))
    /\ long_url row = LongURL req
    /\ (forall row', In row' (table (fst (handleShorten decode lib ddl r w))) ->
                     long_url row' = LongURL req -> row' = row)
    /\ (forall row', In row' (table (fst (handleShorten decode lib ddl r w))) ->
                     short_key row' = short_key row -> row' = row)
    /\ String.length (short_key row) = 7%nat
    /\ GoString.sall key_char (short_key row) = true
    /\ (Db.pending (fst (handleShorten decode lib ddl r w)) = None ->
        click_count row < Db.INT_MAX ->
        snd (handleRedirect ("/" ++ short_key row)
               (fst (handleShorten decode lib ddl r w)))
        = HttpRedirect (LongURL req) 302).
Proof.
  intros Hr H. unfold handleShorten in *.
  destruct (String.eqb_spec (Method r) "POST") as [Hm|Hm]; cbn [negb] in *;
    [|discriminate H].
  destruct (decode (Body r)) as [req|e]; [|discriminate H].
  destruct (String.eqb_spec (LongURL req) "") as [Hl|Hl]; [discriminate H|].
  destruct (HandleShortURLRequest lib ddl (LongURL req) w)
    as [w1 [u|err]] eqn:E; cbn [fst snd] in *; [|discriminate H].
  injection H as <-. cbn [ShortURL Error].
  assert (Hr1 : reachable lib ddl w1).
  { replace w1 with (fst (HandleShortURLRequest lib ddl (LongURL req) w))
      by (rewrite E; reflexivity).
    apply reach_shorten, Hr. }
  destruct (reachable_table_inv lib ddl w1 Hr1) as (Hnk & Hnu & Hmade).
  destruct (shorten_ok_row lib ddl (LongURL req) w w1 u Hr E)
    as (row & Hf & H7 & Hu).
  pose proof (find_some _ _ Hf) as [Hin Hurl].
  unfold Db.has_url in Hurl. apply String.eqb_eq in Hurl.
  pose proof (proj1 (shorten_ok_cases lib ddl (LongURL req) w w1 u E)) as Hv.
  assert (Hc : GoString.sall key_char (short_key row) = true).
  { rewrite Forall_forall in Hmade.
    destruct (Hmade row Hin) as [(i & _ & ->) _].
    apply generateShortURLKey_chars. }
  exists req, row.
  repeat (split; [first [assumption | reflexivity]|]).
  split.
  { intros row' Hin' Hurl'.
    apply (NoDup_map_eq long_url (table w1) row' row Hnu Hin' Hin).
    rewrite Hurl, Hurl'. reflexivity. }
  split.
  { intros row' Hin' Hk'.
    apply (NoDup_map_eq short_key (table w1) row' row Hnk Hin' Hin Hk'). }
  split; [exact H7|]. split; [exact Hc|].
  intros Hp Hlt.
  rewrite (redirect_found (table w1) w1 row eq_refl Hnk Hin H7 Hc Hp Hlt).
  cbn [snd]. rewrite Hurl. reflexivity.
Qed.

Lemma handleShorten_created_witness :
  exists req row,
    Method post_example = "POST"
    /\ decode_body (Body post_example) = Ok req
    /\ LongURL req <> ""
    /\ ValidateLongURL golib (LongURL req) = None
    /\ Error (mkShortenResponse "http://shan747.urs/ODAbUmv" "") = ""
    /\ generateFullShortURL golib (short_key row)
       = Ok (ShortURL (mkShortenResponse "http://shan747.urs/ODAbUmv" ""))
    /\ In row (table posted_world)
    /\ long_url row = LongURL req
    /\ (forall row', In row' (table posted_world) ->
                     long_url row' = LongURL req -> row' = row)
    /\ (forall row', In row' (table posted_world) ->
                     short_key row' = short_key row -> row' = row)
    /\ String.length (short_key row) = 7%nat
    /\ GoString.sall key_char (short_key row) = true
    /\ (Db.pending posted_world = None ->
        click_count row < Db.INT_MAX ->
        snd (handleRedirect ("/" ++ short_key row) posted_world)
        = HttpRedirect (LongURL req) 302).
Proof.
  apply (handleShorten_created decode_body golib create_table_sql_rev
           post_example init_world
           (mkShortenResponse "http://shan747.urs/ODAbUmv" "")).
  - apply reach_init.
  - vm_compute. reflexivity.
Defined.

(** ** What the table holds *)

(** What an accepted long URL is like. *)
Lemma ValidateLongURL_accepts (lib : GoLib) (u : string) :
  ValidateLongURL lib u = None ->
  GoString.len u <= MaxURLLength
  /\ exists p,
       url_Parse lib u = Ok p
       /\ (Url.Scheme p = "http" \/ Url.Scheme p = "https")
       /\ host_blocked
            (GoString.ToLower (unicode_ToLower lib) (Url.Hostname p)) = false.
Proof.
  unfold ValidateLongURL.
  destruct (MaxURLLength <? GoString.len u) eqn:El; [discriminate|].
  apply Z.ltb_ge in El.
  destruct (url_Parse lib u) as [p|e]; [|discriminate].
  destruct (String.eqb_spec (Url.Scheme p) "http") as [Hh|Hh];
    destruct (String.eqb_spec (Url.Scheme p) "https") as [Hs|Hs];
    cbn [negb andb]; try discriminate;
    (fold (host_blocked
             (GoString.ToLower (unicode_ToLower lib) (Url.Hostname p)));
     destruct (host_blocked _) eqn:Eb; [discriminate|];
     intros _; split; [exact El|]; exists p; auto).
Qed.

(** X15.  The table never holds a long URL the validator would turn down:
    every long URL of a reachable table has at most 2048 bytes, parses,
    has the scheme http or https, and a hostname the host rule does not
    match. *)
Theorem reachable_rows_safe (lib : GoLib) (ddl : Schema) (w : World) (r : Row) :
  reachable lib ddl w ->
  In r (table w) ->
  GoString.len (long_url r) <= 2048
  /\ exists p,
       url_Parse lib (long_url r) = Ok p
       /\ (Url.Scheme p = "http" \/ Url.Scheme p = "https")
       /\ host_blocked
            (GoString.ToLower (unicode_ToLower lib) (Url.Hostname p)) = false.
Proof.
  intros H Hin.
  destruct (reachable_table_inv lib ddl w H) as (_ & _ & Hm).
  rewrite Forall_forall in Hm. destruct (Hm r Hin) as [_ Hv].
  apply (ValidateLongURL_accepts lib (long_url r) Hv).
Qed.

Lemma reachable_rows_safe_witness :
  GoString.len "https://example.com/a" <= 2048
  /\ exists p,
       Url.Parse "https://example.com/a" = Ok p
       /\ (Url.Scheme p = "http" \/ Url.Scheme p = "https")
       /\ host_blocked
            (GoString.ToLower (unicode_ToLower golib) (Url.Hostname p)) = false.
Proof.
  apply (reachable_rows_safe golib create_table_sql_rev one_mapping_world
           (mkRow "ODAbUmv" "https://example.com/a" 0)).
  - exact one_mapping_world_reachable.
  - vm_compute. left. reflexivity.
Defined.

(** ** Failures of a redirect *)

(** X16.  A redirect whose statement fails never redirects and leaves the
    table as it was.  The answer is 500 "internal server error", without
    the text of the error, unless that text contains "not found" or
    "invalid short key length": then the handler takes the failure for a
    missing or malformed key and sends the whole text with 404 or 400. *)
Theorem redirect_store_failure (key : string) (w : World) (f : fault) :
  String.length key = 7%nat ->
  GoString.sall key_char key = true ->
  Db.pending w = Some f ->
  handleRedirect ("/" ++ key) w
  = (Db.after w (table w) (UpdateClickCount key) (Some (fault_error f)),
     error_answer ("database query failed: " ++ Error_text (fault_error f))).
Proof.
  intros H7 Hc Hp.
  set (t := ("database query failed: " ++ Error_text (fault_error f))%string).
  unfold handleRedirect.
  change (GoString.HasPrefix ("/" ++ key) "/api/")
    with (GoString.HasPrefix key "api/").
  rewrite (key_chars_not_api _ Hc). cbn [append].
  pose proof (length_7_nonempty _ H7) as Hne.
  apply negb_true_iff in Hne. rewrite Hne, Hc. cbn [negb].
  unfold HandleRedirectRequest. rewrite len_not_7, H7. cbn [Nat.eqb negb].
  unfold Db.update_click_count. rewrite Hp.
  replace (is_ErrNoRows (fault_error f)) with false by (destruct f; reflexivity).
  change (Error_text (Wrapf "database query failed: " (fault_error f))) with t.
  unfold error_answer.
  destruct (GoString.Contains t "invalid short key length"); [reflexivity|].
  destruct (GoString.Contains t "not found"); reflexivity.
Qed.

(** A lost host is taken for a missing key. *)
Lemma redirect_store_failure_witness :
  handleRedirect ("/" ++ "ODAbUmv")
    (mkWorld [] [Some (DriverFault "dial tcp: lookup db: host not found")] [])
  = (mkWorld [] []
       [mkEvent (UpdateClickCount "ODAbUmv")
          (Some (DriverError "dial tcp: lookup db: host not found"))],
     HttpError "database query failed: dial tcp: lookup db: host not found" 404).
Proof.
  apply (redirect_store_failure "ODAbUmv"
           (mkWorld [] [Some (DriverFault "dial tcp: lookup db: host not found")] [])
           (DriverFault "dial tcp: lookup db: host not found"));
    reflexivity.
Defined.

(** ** The first revision *)

Lemma generateShortURLKey_unsalted_shape (longUrl : string) :
  String.length (generateShortURLKey_unsalted longUrl) = 7%nat
  /\ GoString.sall key_char (generateShortURLKey_unsalted longUrl) = true.
Proof.
  unfold generateShortURLKey_unsalted.
  rewrite key_of_digest by apply Sum_length.
  apply Encode_32_prefix, Sum_length.
Qed.

(** X17.  In the first revision too the key has seven characters of
    [A-Za-z0-9_-], so [generateFullShortURL] never reports
    "failed to generate short key": it fails only when joining the
    path fails. *)
Theorem generateFullShortURL_first_key (lib : GoLib) (longUrl : string) :
  String.length (generateShortURLKey_unsalted longUrl) = 7%nat
  /\ GoString.sall key_char (generateShortURLKey_unsalted longUrl) = true
  /\ generateFullShortURL_first lib longUrl
     = match url_JoinPath lib "http://shan747.urs/"
               (generateShortURLKey_unsalted longUrl) with
       | Err err => Err (Wrapf "failed to construct full short URL: " err)
       | Ok fullURL => Ok fullURL
       end
  /\ generateFullShortURL_first lib longUrl
     <> Err (Errorf "failed to generate short key").
Proof.
  destruct (generateShortURLKey_unsalted_shape longUrl) as [H7 Hc].
  assert (Hne : String.eqb (generateShortURLKey_unsalted longUrl)
                           "encoded string too short" = false).
  { apply String.eqb_neq. intros E. rewrite E in H7. discriminate H7. }
  split; [exact H7|]. split; [exact Hc|].
  unfold generateFullShortURL_first. rewrite Hne.
  split; [reflexivity|].
  destruct (url_JoinPath lib "http://shan747.urs/"
              (generateShortURLKey_unsalted longUrl)); discriminate.
Qed.
